(** * type-is: runtime type predicates of [src/typeis.js] and the
      dispatcher of [src/index.js], embedded over a small model of
      ECMAScript values.

    Numbers are IEEE 754 binary64 values ([spec_float] of the Standard
    Library, with [prec = 53] and [emax = 1024]); objects live in a heap
    indexed by references, each with its [[Prototype]] link, its own
    data properties and the two internal slots the predicates look at
    ([[Call]] and the Array exotic flag).  The predicates never write to
    the heap, so the heap is a read-only parameter.  Accessor properties
    and proxies are outside the model, and so are the exports that need
    more of the engine than that: [isArguments], [isClass],
    [isExtensible], [isError], [isRegExp] and [isBuffer].  [isInstanceOf]
    is modelled for constructors that keep the default [@@hasInstance],
    and [isIterable] with the property key of [iterator] as a
    parameter. *)

From Stdlib Require Import ZArith List String Bool Lia.
From Stdlib Require Import Decimal DecimalString.
From Stdlib Require Import Floats.SpecFloat.
From stdpp Require Import gmap.

Import ListNotations.
Local Open Scope string_scope.

(** ** The Number type *)

Module Num.

Definition prec : Z := 53.
Definition emax : Z := 1024.

Definition posZero : spec_float := S754_zero false.
Definition negZero : spec_float := S754_zero true.
Definition NaN : spec_float := S754_nan.
Definition Infinity : spec_float := S754_infinity false.
Definition negInfinity : spec_float := S754_infinity true.

(** The Number nearest to an integer (exact below 2^53). *)
Definition ofZ (z : Z) : spec_float := binary_normalize prec emax z 0 false.

(** A dyadic literal [m * 2^e]. *)
Definition dyadic (m e : Z) : spec_float := binary_normalize prec emax m e false.

Definition one : spec_float := ofZ 1.

Definition div : spec_float -> spec_float -> spec_float := SFdiv prec emax.
Definition eqb : spec_float -> spec_float -> bool := SFeqb.
Definition ltb : spec_float -> spec_float -> bool := SFltb.
Definition leb : spec_float -> spec_float -> bool := SFleb.

(** Number::remainder, the [%] operator: the result has the sign of the
    dividend and is computed exactly. *)
Definition rem (n d : spec_float) : spec_float :=
  match n, d with
  | S754_nan, _ | _, S754_nan => S754_nan
  | S754_infinity _, _ => S754_nan
  | _, S754_infinity _ => n
  | _, S754_zero _ => S754_nan
  | S754_zero _, _ => n
  | S754_finite sn mn en, S754_finite _ md ed =>
      let e := Z.min en ed in
      let N := Zpos (fst (shl_align mn en e)) in
      let D := Zpos (fst (shl_align md ed e)) in
      binary_normalize prec emax (cond_Zopp sn (Z.modulo N D)) e sn
  end.

(** [Number.isSafeInteger] on a Number: integral and at most
    [2^53 - 1] in magnitude. *)
Definition isSafeInteger (n : spec_float) : bool :=
  match n with
  | S754_nan | S754_infinity _ => false
  | _ => SFeqb (rem n one) posZero && SFleb (SFabs n) (ofZ (2 ^ 53 - 1))
  end.

(** The test behind the global [isFinite] once its argument is a Number. *)
Definition finite (n : spec_float) : bool :=
  match n with
  | S754_nan | S754_infinity _ => false
  | S754_zero _ | S754_finite _ _ _ => true
  end.

End Num.

(** ** Values and objects *)

Inductive Value : Type :=
| VUndefined
| VNull
| VBoolean (b : bool)
| VNumber (n : spec_float)
| VString (s : string)
| VSymbol (id : nat)
| VBigInt (z : Z)
| VObject (l : nat).

Record Property : Type := mkProperty {
  p_value : Value;
  p_enumerable : bool
}.

Record Obj : Type := mkObj {
  o_proto : option nat;                  (* [[Prototype]]: null or an object *)
  o_callable : bool;                     (* has a [[Call]] slot *)
  o_array : bool;                        (* Array exotic object *)
  o_props : list (string * Property)     (* own data properties, in creation order *)
}.

(** Locations of the prototypes that property lookups on primitives go
    through. *)
Record Realm : Type := mkRealm {
  StringPrototype : nat;
  NumberPrototype : nat;
  BooleanPrototype : nat;
  SymbolPrototype : nat;
  BigIntPrototype : nat
}.

(** ** Completions *)

Inductive JsError : Type := TypeError | ReferenceError.

Inductive Res (A : Type) : Type :=
| Ok (a : A)
| Throw (e : JsError)
| OutOfFuel.

Arguments Ok {A} a.
Arguments Throw {A} e.
Arguments OutOfFuel {A}.

Definition bind {A B : Type} (m : Res A) (k : A -> Res B) : Res B :=
  match m with
  | Ok a => k a
  | Throw e => Throw e
  | OutOfFuel => OutOfFuel
  end.

Notation "'let*' x ':=' m 'in' k" := (bind m (fun x => k))
  (at level 10, x name, m at level 100, k at level 200).

(** ** Operators *)

(** [a === b] *)
Definition strictEq (a b : Value) : bool :=
  match a, b with
  | VUndefined, VUndefined => true
  | VNull, VNull => true
  | VBoolean x, VBoolean y => Bool.eqb x y
  | VNumber x, VNumber y => Num.eqb x y
  | VString x, VString y => String.eqb x y
  | VSymbol x, VSymbol y => Nat.eqb x y
  | VBigInt x, VBigInt y => Z.eqb x y
  | VObject x, VObject y => Nat.eqb x y
  | _, _ => false
  end.

(** [a !== b] *)
Definition strictNe (a b : Value) : bool := negb (strictEq a b).

(** ToBoolean, as used by [!!value] and by [while (current)]. *)
Definition ToBoolean (v : Value) : bool :=
  match v with
  | VUndefined | VNull => false
  | VBoolean b => b
  | VNumber n =>
      match n with
      | S754_zero _ | S754_nan => false
      | _ => true
      end
  | VString s => negb (String.eqb s "")
  | VSymbol _ => true
  | VBigInt z => negb (Z.eqb z 0)
  | VObject _ => true
  end.

(** The Number held by a value whose [typeof] is ["number"].  Every
    arithmetic operator of the module runs behind [isNumber] or behind a
    [===] with a Number, so the coercions of the other types are never
    reached; they read as [NaN] here. *)
Definition numberValue (v : Value) : spec_float :=
  match v with
  | VNumber n => n
  | _ => Num.NaN
  end.

(** ** Own properties of String values *)

(** The key of the array index [i]. *)
Definition indexKey (i : nat) : string := NilEmpty.string_of_uint (Nat.to_uint i).

(** The array index a key spells in canonical form, if any. *)
Definition keyIndex (key : string) : option nat :=
  match NilEmpty.uint_of_string key with
  | Some u =>
      let i := Nat.of_uint u in
      if String.eqb (indexKey i) key then Some i else None
  | None => None
  end.

(** A String value owns [length] and one property per index. *)
Definition stringOwnProperty (s key : string) : option Value :=
  if String.eqb key "length" then
    Some (VNumber (Num.ofZ (Z.of_nat (String.length s))))
  else
    match keyIndex key with
    | Some i =>
        match String.get i s with
        | Some c => Some (VString (String c EmptyString))
        | None => None
        end
    | None => None
    end.

Section TypeIs.

Variable h : gmap nat Obj.
Variable realm : Realm.

(** Bindings of the global environment, where a free identifier of the
    module is resolved. *)
Variable genv : string -> option Value.

Definition callable (l : nat) : bool :=
  match h !! l with
  | Some o => o_callable o
  | None => false
  end.

(** [typeof value] *)
Definition typeof (value : Value) : string :=
  match value with
  | VUndefined => "undefined"
  | VNull => "object"
  | VBoolean _ => "boolean"
  | VNumber _ => "number"
  | VString _ => "string"
  | VSymbol _ => "symbol"
  | VBigInt _ => "bigint"
  | VObject l => if callable l then "function" else "object"
  end.

Definition makeTypeOfCallback (type : Value) : Value -> bool :=
  let kind := if ToBoolean type then type else VString "object" in
  fun value => strictEq (VString (typeof value)) kind.

(** *** Defined and undefined types *)

Definition isDefined (value : Value) : bool :=
  strictNe value VNull && strictNe value VUndefined.

Definition isEmpty (value : Value) : bool :=
  strictEq value VUndefined || strictEq value VNull.

Definition isNull (value : Value) : bool := strictEq value VNull.

Definition isUndefined (value : Value) : bool := strictEq value VUndefined.

(** *** Primitive types *)

Definition isNumber (value : Value) : bool :=
  String.eqb (typeof value) "number" && Num.finite (numberValue value).

Definition isString (value : Value) : bool :=
  String.eqb (typeof value) "string".

Definition isBoolean (value : Value) : bool :=
  strictEq value (VBoolean (ToBoolean value)).

Definition isFunction (value : Value) : bool :=
  String.eqb (typeof value) "function".

Definition isObject (value : Value) : bool :=
  strictNe value VNull && String.eqb (typeof value) "object".

Definition isSymbol (value : Value) : bool :=
  String.eqb (typeof value) "symbol".

Definition isBigInt (value : Value) : bool :=
  String.eqb (typeof value) "bigint".

(** *** Numbers definitions *)

Definition isFiniteNumber (value : Value) : bool :=
  String.eqb (typeof value) "number" && Num.finite (numberValue value).

Definition isInfinity (value : Value) : bool :=
  strictEq value (VNumber Num.Infinity) || strictEq value (VNumber Num.negInfinity).

Definition isNotANumber (value : Value) : bool := strictNe value value.

(** *** Equality *)

Definition isEquals (a b : Value) : bool :=
  if isNumber a then
    if strictEq a b then
      strictEq (VNumber (Num.div Num.one (numberValue a)))
               (VNumber (Num.div Num.one (numberValue b)))
    else
      strictNe a a && strictNe b b
  else strictEq a b.

(** *** Property access *)

Definition ownProperty (o : Obj) (key : string) : option Property :=
  option_map snd (find (fun kp => String.eqb (fst kp) key) (o_props o)).

(** OrdinaryGet restricted to data properties: the own property when
    there is one, else the same question to the prototype. *)
Fixpoint OrdinaryGet (fuel : nat) (l : nat) (key : string) : Res Value :=
  match fuel with
  | O => OutOfFuel
  | S fuel' =>
      match h !! l with
      | None => Ok VUndefined
      | Some o =>
          match ownProperty o key with
          | Some p => Ok (p_value p)
          | None =>
              match o_proto o with
              | Some parent => OrdinaryGet fuel' parent key
              | None => Ok VUndefined
              end
          end
      end
  end.

(** [value.key], that is GetV: primitives are looked up through their
    wrapper, [null] and [undefined] have no properties to read. *)
Definition GetV (fuel : nat) (value : Value) (key : string) : Res Value :=
  match value with
  | VUndefined | VNull => Throw TypeError
  | VBoolean _ => OrdinaryGet fuel (BooleanPrototype realm) key
  | VNumber _ => OrdinaryGet fuel (NumberPrototype realm) key
  | VString s =>
      match stringOwnProperty s key with
      | Some v => Ok v
      | None => OrdinaryGet fuel (StringPrototype realm) key
      end
  | VSymbol _ => OrdinaryGet fuel (SymbolPrototype realm) key
  | VBigInt _ => OrdinaryGet fuel (BigIntPrototype realm) key
  | VObject l => OrdinaryGet fuel l key
  end.

(** [Object.getPrototypeOf(value)] *)
Definition getPrototypeOf (value : Value) : Res Value :=
  match value with
  | VUndefined | VNull => Throw TypeError
  | VBoolean _ => Ok (VObject (BooleanPrototype realm))
  | VNumber _ => Ok (VObject (NumberPrototype realm))
  | VString _ => Ok (VObject (StringPrototype realm))
  | VSymbol _ => Ok (VObject (SymbolPrototype realm))
  | VBigInt _ => Ok (VObject (BigIntPrototype realm))
  | VObject l =>
      match h !! l with
      | Some o =>
          match o_proto o with
          | Some parent => Ok (VObject parent)
          | None => Ok VNull
          end
      | None => Ok VNull
      end
  end.

(** [Object.keys(value)]: the own enumerable string keys.  The module
    only reads the length of the result. *)
Definition ObjectKeys (value : Value) : Res (list string) :=
  match value with
  | VUndefined | VNull => Throw TypeError
  | VString s => Ok (map indexKey (seq 0 (String.length s)))
  | VObject l =>
      match h !! l with
      | Some o =>
          Ok (map fst (filter (fun kp => p_enumerable (snd kp)) (o_props o)))
      | None => Ok []
      end
  | VBoolean _ | VNumber _ | VSymbol _ | VBigInt _ => Ok []
  end.

Definition getConstructorName (fuel : nat) (value : Value) : Res Value :=
  if isDefined value then
    let* c := GetV fuel value "constructor" in
    if isFunction c then
      let* c' := GetV fuel value "constructor" in
      GetV fuel c' "name"
    else Ok VNull
  else Ok VNull.

(** *** Function types *)

Definition isGenFunc (fuel : nat) (value : Value) : Res bool :=
  if isFunction value then
    let* name := getConstructorName fuel value in
    Ok (strictEq name (VString "GeneratorFunction"))
  else Ok false.

Definition isAsyncFunc (fuel : nat) (value : Value) : Res bool :=
  if isFunction value then
    let* name := getConstructorName fuel value in
    Ok (strictEq name (VString "AsyncFunction"))
  else Ok false.

(** *** Object definitions *)

(** The [while] loop of [isExtendOf]; [superClass.prototype] is read
    again at every turn, as in the source. *)
Fixpoint isExtendOf_loop (fuel0 : nat) (superClass : Value)
    (fuel : nat) (current : Value) : Res bool :=
  match fuel with
  | O => OutOfFuel
  | S fuel' =>
      if ToBoolean current then
        let* sup := GetV fuel0 superClass "prototype" in
        if strictEq current sup then Ok true
        else
          let* next := getPrototypeOf current in
          isExtendOf_loop fuel0 superClass fuel' next
      else Ok false
  end.

Definition isExtendOf (fuel : nat) (subClass superClass : Value) : Res bool :=
  let* current := GetV fuel subClass "prototype" in
  isExtendOf_loop fuel superClass fuel current.

(** *** Iterable types *)

(** [Array.isArray], which every ES5 engine has, so the [instanceof]
    fallback of the source is never the one selected. *)
Definition isArray (value : Value) : bool :=
  match value with
  | VObject l =>
      match h !! l with
      | Some o => o_array o
      | None => false
      end
  | _ => false
  end.

(** *** Numbers definitions *)

Definition isInt (value : Value) : bool :=
  isNumber value &&
  strictEq (VNumber (Num.rem (numberValue value) Num.one)) (VNumber Num.posZero).

(** The parameter is [params]; the body reads [value], which no scope
    of the module declares, so the identifier is resolved in the global
    environment. *)
Definition isFloat (params : Value) : Res bool :=
  match genv "value" with
  | None => Throw ReferenceError
  | Some value =>
      Ok (isNumber value &&
          strictNe (VNumber (Num.rem (numberValue value) Num.one))
                   (VNumber Num.posZero))
  end.

Definition isUInt (value : Value) : bool :=
  isInt value && Num.leb Num.posZero (numberValue value).

Definition isUnsigned (value : Value) : bool :=
  isNumber value && Num.leb Num.posZero (numberValue value).

Definition isPositive (value : Value) : bool :=
  isNumber value && Num.ltb Num.posZero (numberValue value).

Definition isNegative (value : Value) : bool :=
  isNumber value && Num.ltb (numberValue value) Num.posZero.

Definition isSafeInt (value : Value) : bool :=
  isNumber value && Num.isSafeInteger (numberValue value).

Definition isArrayLike (fuel : nat) (value : Value) : Res bool :=
  if isDefined value then
    let* len := GetV fuel value "length" in
    Ok (isUInt len)
  else Ok false.

Definition isZeroValue (fuel : nat) (value : Value) : Res bool :=
  if isEmpty value then Ok true
  else if strictEq value (VNumber Num.posZero) then Ok true
  else
    let* len := GetV fuel value "length" in
    if strictEq len (VNumber Num.posZero) then Ok true
    else
      let* keys := ObjectKeys value in
      Ok (strictEq (VNumber (Num.ofZ (Z.of_nat (List.length keys))))
                   (VNumber Num.posZero)).

Definition isNonZeroValue (fuel : nat) (value : Value) : Res bool :=
  let* zero := isZeroValue fuel value in
  Ok (negb zero).

(** *** ES6 features *)

Definition isPromise (fuel : nat) (value : Value) : Res bool :=
  if isFunction value then
    let* name := getConstructorName fuel value in
    Ok (strictEq name (VString "Promise"))
  else Ok false.

Definition isMap (fuel : nat) (value : Value) : Res bool :=
  if isFunction value then
    let* name := getConstructorName fuel value in
    Ok (strictEq name (VString "Map"))
  else Ok false.

Definition isSet (fuel : nat) (value : Value) : Res bool :=
  if isFunction value then
    let* name := getConstructorName fuel value in
    Ok (strictEq name (VString "Set"))
  else Ok false.

(** *** The dispatcher of [index.js] *)

Definition typeis (value : Value) : string :=
  if isNull value then "null"
  else if isArray value then "array"
  else typeof value.

End TypeIs.

(** ** Exports that lean on more of the engine *)

Section Engine.

Variable h : gmap nat Obj.
Variable realm : Realm.
Variable genv : string -> option Value.

(** The object that carries the default [@@hasInstance] method,
    %Function.prototype%.  The heap keeps string keys only, so this is
    the one object taken to own that method. *)
Variable functionPrototype : nat.

(** The string key a value names when it is used as a property name
    (ToPropertyKey). *)
Variable propertyKey : Value -> Res string.

(** Whether the prototype chain of [l], [l] included, passes through
    [target]. *)
Fixpoint inChain (fuel : nat) (l target : nat) : Res bool :=
  match fuel with
  | O => OutOfFuel
  | S fuel' =>
      if Nat.eqb l target then Ok true
      else
        match h !! l with
        | Some o =>
            match o_proto o with
            | Some parent => inChain fuel' parent target
            | None => Ok false
            end
        | None => Ok false
        end
  end.

(** The loop of OrdinaryHasInstance: climb from [obj], which is an
    object, until [null] or the object at [P]. *)
Fixpoint hasInstance_loop (fuel : nat) (obj : Value) (P : nat) : Res bool :=
  match fuel with
  | 0 => OutOfFuel
  | S fuel' =>
      let* parent := getPrototypeOf h realm obj in
      match parent with
      | VObject o' =>
          if Nat.eqb P o' then Ok true else hasInstance_loop fuel' parent P
      | _ => Ok false
      end
  end.

(** OrdinaryHasInstance(C, V), bound functions apart. *)
Definition OrdinaryHasInstance (fuel : nat) (C V : Value) : Res bool :=
  if isFunction h C then
    match V with
    | VObject _ =>
        let* P := GetV h realm fuel C "prototype" in
        match P with
        | VObject p => hasInstance_loop fuel V p
        | _ => Throw TypeError
        end
    | _ => Ok false
    end
  else Ok false.

(** [target instanceof constructor]: the method found under
    [@@hasInstance] is the default one or none. *)
Definition instanceOf (fuel : nat) (target constructor : Value) : Res bool :=
  match constructor with
  | VObject c =>
      let* inherits := inChain fuel c functionPrototype in
      if inherits then OrdinaryHasInstance fuel constructor target
      else if isFunction h constructor then
        OrdinaryHasInstance fuel constructor target
      else Throw TypeError
  | _ => Throw TypeError
  end.

Definition isInstanceOf (fuel : nat) (target constructor : Value) : Res bool :=
  instanceOf fuel target constructor.

(** The body reads [iterator], which no scope of the module declares, so
    the identifier is resolved in the global environment. *)
Definition isIterable (fuel : nat) (value : Value) : Res bool :=
  if isDefined value then
    match genv "iterator" with
    | None => Throw ReferenceError
    | Some name =>
        let* key := propertyKey name in
        let* method := GetV h realm fuel value key in
        Ok (isFunction h method)
    end
  else Ok false.

End Engine.

(** ** A concrete realm

    The intrinsic objects the predicates can reach, followed by a few
    objects of a program, so that the predicates can be run. *)

Module Sample.

Definition data (v : Value) : Property := mkProperty v true.
Definition hidden (v : Value) : Property := mkProperty v false.
Definition num (z : Z) : Value := VNumber (Num.ofZ z).

Definition plain (proto : nat) (props : list (string * Property)) : Obj :=
  mkObj (Some proto) false false props.

(** A function object: [length], [name] and, for constructors, [prototype]. *)
Definition func (proto : nat) (name : string) (arity : Z)
    (prototype : option nat) : Obj :=
  mkObj (Some proto) true false
    ([("length", hidden (num arity)); ("name", hidden (VString name))] ++
     match prototype with
     | Some p => [("prototype", hidden (VObject p))]
     | None => []
     end).

Definition ObjectPrototype : nat := 0.
Definition FunctionPrototype : nat := 1.
Definition ObjectCtor : nat := 2.
Definition FunctionCtor : nat := 3.
Definition StringProto : nat := 4.
Definition NumberProto : nat := 5.
Definition BooleanProto : nat := 6.
Definition SymbolProto : nat := 7.
Definition BigIntProto : nat := 8.
Definition ArrayProto : nat := 9.
Definition PromiseProto : nat := 10.
Definition PromiseCtor : nat := 11.
Definition StringCtor : nat := 12.
Definition NumberCtor : nat := 13.
Definition BooleanCtor : nat := 14.
Definition SymbolCtor : nat := 15.
Definition BigIntCtor : nat := 16.
Definition ArrayCtor : nat := 17.

(** Objects of the program. *)
Definition aPromise : nat := 20.      (* Promise.resolve() *)
Definition anArray : nat := 21.       (* [1, 2] *)
Definition aFunction : nat := 22.     (* function () {} *)
Definition aFunctionProto : nat := 23.
Definition emptyObj1 : nat := 24.     (* {} *)
Definition emptyObj2 : nat := 25.     (* {} *)
Definition Base : nat := 26.          (* class Base {} *)
Definition BaseProto : nat := 27.
Definition Sub : nat := 28.           (* class Sub extends Base {} *)
Definition SubProto : nat := 29.
Definition Other : nat := 30.         (* class Other {} *)
Definition OtherProto : nat := 31.
Definition anObject : nat := 32.      (* { x: 1 } *)

Definition protoOf (ctor : nat) (parent : nat) : Obj :=
  plain parent [("constructor", hidden (VObject ctor))].

Definition objects : list (nat * Obj) :=
  [ (ObjectPrototype,
      mkObj None false false [("constructor", hidden (VObject ObjectCtor))]);
    (FunctionPrototype,
      mkObj (Some ObjectPrototype) true false
        [("length", hidden (num 0)); ("name", hidden (VString ""));
         ("constructor", hidden (VObject FunctionCtor))]);
    (ObjectCtor, func FunctionPrototype "Object" 1 (Some ObjectPrototype));
    (FunctionCtor, func FunctionPrototype "Function" 1 (Some FunctionPrototype));
    (StringProto,
      plain ObjectPrototype
        [("length", hidden (num 0)); ("constructor", hidden (VObject StringCtor))]);
    (NumberProto, protoOf NumberCtor ObjectPrototype);
    (BooleanProto, protoOf BooleanCtor ObjectPrototype);
    (SymbolProto, protoOf SymbolCtor ObjectPrototype);
    (BigIntProto, protoOf BigIntCtor ObjectPrototype);
    (ArrayProto,
      mkObj (Some ObjectPrototype) false true
        [("length", hidden (num 0)); ("constructor", hidden (VObject ArrayCtor))]);
    (PromiseProto, protoOf PromiseCtor ObjectPrototype);
    (PromiseCtor, func FunctionPrototype "Promise" 1 (Some PromiseProto));
    (StringCtor, func FunctionPrototype "String" 1 (Some StringProto));
    (NumberCtor, func FunctionPrototype "Number" 1 (Some NumberProto));
    (BooleanCtor, func FunctionPrototype "Boolean" 1 (Some BooleanProto));
    (SymbolCtor, func FunctionPrototype "Symbol" 0 (Some SymbolProto));
    (BigIntCtor, func FunctionPrototype "BigInt" 1 (Some BigIntProto));
    (ArrayCtor, func FunctionPrototype "Array" 1 (Some ArrayProto));
    (aPromise, plain PromiseProto []);
    (anArray,
      mkObj (Some ArrayProto) false true
        [("0", data (num 1)); ("1", data (num 2)); ("length", hidden (num 2))]);
    (aFunction, func FunctionPrototype "" 0 (Some aFunctionProto));
    (aFunctionProto, protoOf aFunction ObjectPrototype);
    (emptyObj1, plain ObjectPrototype []);
    (emptyObj2, plain ObjectPrototype []);
    (Base, func FunctionPrototype "Base" 0 (Some BaseProto));
    (BaseProto, protoOf Base ObjectPrototype);
    (Sub, func Base "Sub" 0 (Some SubProto));
    (SubProto, protoOf Sub BaseProto);
    (Other, func FunctionPrototype "Other" 0 (Some OtherProto));
    (OtherProto, protoOf Other ObjectPrototype);
    (anObject, plain ObjectPrototype [("x", data (num 1))]) ].

Definition heap : gmap nat Obj := list_to_map objects.

Definition realm : Realm :=
  mkRealm StringProto NumberProto BooleanProto SymbolProto BigIntProto.

(** The value bindings of the global object that the module can name.
    Nothing binds [value]. *)
Definition globals (name : string) : option Value :=
  if String.eqb name "undefined" then Some VUndefined
  else if String.eqb name "NaN" then Some (VNumber Num.NaN)
  else if String.eqb name "Infinity" then Some (VNumber Num.Infinity)
  else if String.eqb name "Object" then Some (VObject ObjectCtor)
  else if String.eqb name "Function" then Some (VObject FunctionCtor)
  else if String.eqb name "Array" then Some (VObject ArrayCtor)
  else if String.eqb name "Promise" then Some (VObject PromiseCtor)
  else if String.eqb name "String" then Some (VObject StringCtor)
  else if String.eqb name "Number" then Some (VObject NumberCtor)
  else if String.eqb name "Boolean" then Some (VObject BooleanCtor)
  else if String.eqb name "Symbol" then Some (VObject SymbolCtor)
  else if String.eqb name "BigInt" then Some (VObject BigIntCtor)
  else None.

(** More than the length of any prototype chain of [heap]. *)
Definition fuel : nat := 8.

(** Number literals used below. *)
Definition threeAndHalf : Value := VNumber (Num.dyadic 7 (-1)).   (* 3.5 *)
Definition negativeZero : Value := VNumber Num.negZero.           (* -0 *)

End Sample.

(** ** Prototype chains *)

(** The value of the own [prototype] property of the object at [c]. *)
Definition ownPrototype (h : gmap nat Obj) (c : nat) : option Value :=
  match h !! c with
  | Some o => option_map p_value (ownProperty o "prototype")
  | None => None
  end.

(** [protoReach h l l']: following [[Prototype]] links from [l], zero or
    more times, arrives at [l']. *)
Inductive protoReach (h : gmap nat Obj) : nat -> nat -> Prop :=
| reach_here (l : nat) : protoReach h l l
| reach_link (l : nat) (o : Obj) (p l' : nat) :
    h !! l = Some o -> o_proto o = Some p ->
    protoReach h p l' -> protoReach h l l'.

(** [chainEnds h l n]: the prototype chain of [l] ends after [n] links. *)
Inductive chainEnds (h : gmap nat Obj) : nat -> nat -> Prop :=
| chain_null (l : nat) (o : Obj) :
    h !! l = Some o -> o_proto o = None -> chainEnds h l 0
| chain_absent (l : nat) :
    h !! l = None -> chainEnds h l 0
| chain_link (l : nat) (o : Obj) (p n : nat) :
    h !! l = Some o -> o_proto o = Some p ->
    chainEnds h p n -> chainEnds h l (S n).

(** [above h o p]: [p] is on the prototype chain of [o], strictly above
    [o]. *)
Definition above (h : gmap nat Obj) (o p : nat) : Prop :=
  exists ob parent,
    h !! o = Some ob /\ o_proto ob = Some parent /\ protoReach h parent p.

(** Every prototype chain of the heap ends in fewer than [bound] links. *)
Definition chainsWithin (h : gmap nat Obj) (bound : nat) : Prop :=
  forall l : nat, exists n : nat, chainEnds h l n /\ n < bound.

(** ** Vocabulary of the statements *)

Fixpoint countTrue (bs : list bool) : nat :=
  match bs with
  | [] => 0
  | true :: bs' => S (countTrue bs')
  | false :: bs' => countTrue bs'
  end.

(** A call that returned [true]. *)
Definition accepts (r : Res bool) : bool :=
  match r with
  | Ok true => true
  | _ => false
  end.

(** The eleven kinds a value can be of, as the predicates see it. *)
Definition kinds (h : gmap nat Obj) (v : Value) : list bool :=
  [isUndefined v; isNull v; isBoolean v; isNumber h v; isInfinity v;
   isNotANumber v; isString h v; isSymbol h v; isBigInt h v; isFunction h v;
   isObject h v].

(** Two zeros of opposite signs. *)
Definition oppositeZeros (a b : Value) : bool :=
  match a, b with
  | VNumber (S754_zero s), VNumber (S754_zero t) => xorb s t
  | _, _ => false
  end.

(** The mathematical integers among the Numbers: [m * 2^e] with [e >= 0]
    or with [2^(-e)] dividing [m]. *)
Definition integral (n : spec_float) : bool :=
  match n with
  | S754_zero _ => true
  | S754_finite _ m e => (0 <=? e)%Z || (Z.modulo (Zpos m) (2 ^ (- e)) =? 0)%Z
  | S754_nan | S754_infinity _ => false
  end.

(** ** The tags of the dispatcher *)

Definition tags : list string :=
  ["null"; "array"; "number"; "string"; "boolean"; "function"; "object";
   "bigint"; "symbol"; "undefined"].

(** One value per tag, in the order of [tags]. *)
Definition tagSamples : list Value :=
  [VNull; VObject Sample.anArray; Sample.num 42; VString "x"; VBoolean true;
   VObject Sample.aFunction; VObject Sample.emptyObj1; VBigInt 7; VSymbol 0;
   VUndefined].

(** ** Facts about the operators *)

Lemma SFcompare_antisym (x y : spec_float) :
  SFcompare y x = option_map CompOpp (SFcompare x y).
Proof.
  destruct x as [sx|sx| |sx mx ex], y as [sy|sy| |sy my ey]; simpl;
    try destruct sx; try destruct sy; try reflexivity.
  all: rewrite (Z.compare_antisym ey ex);
    destruct (ey ?= ex)%Z; simpl; try reflexivity;
    rewrite (Pos.compare_cont_antisym mx my Eq); simpl;
    destruct (Pos.compare_cont Eq my mx); reflexivity.
Qed.

Lemma Num_eqb_sym (x y : spec_float) : Num.eqb x y = Num.eqb y x.
Proof.
  unfold Num.eqb, SFeqb. rewrite (SFcompare_antisym x y).
  destruct (SFcompare x y) as [[ | | ]|]; reflexivity.
Qed.

Lemma Num_eqb_finite_refl (x : spec_float) :
  Num.finite x = true -> Num.eqb x x = true.
Proof.
  destruct x as [s|s| |s m e]; simpl; try discriminate; intros _; try reflexivity.
  unfold Num.eqb, SFeqb; simpl.
  rewrite Z.compare_refl, Pos.compare_cont_refl. destruct s; reflexivity.
Qed.

Lemma Num_eqb_finite (x y : spec_float) :
  Num.eqb x y = true -> Num.finite x = true -> Num.finite y = true.
Proof.
  destruct x as [sx|sx| |sx mx ex], y as [sy|sy| |sy my ey]; simpl;
    try discriminate; try reflexivity;
    unfold Num.eqb, SFeqb; simpl; try destruct sx; try destruct sy; discriminate.
Qed.

Lemma strictEq_sym (a b : Value) : strictEq a b = strictEq b a.
Proof.
  destruct a, b; simpl; try reflexivity.
  - destruct b, b0; reflexivity.
  - apply Num_eqb_sym.
  - apply String.eqb_sym.
  - apply Nat.eqb_sym.
  - apply Z.eqb_sym.
  - apply Nat.eqb_sym.
Qed.

Section Facts.

Variable h : gmap nat Obj.

Lemma isNumber_inv (v : Value) :
  isNumber h v = true -> exists n, v = VNumber n /\ Num.finite n = true.
Proof.
  unfold isNumber. destruct v; simpl; try discriminate.
  - intros H. exists n. split; [reflexivity | exact H].
  - destruct (callable h l); discriminate.
Qed.

Lemma isNumber_number (n : spec_float) :
  isNumber h (VNumber n) = Num.finite n.
Proof. reflexivity. Qed.

Lemma isNumber_strictEq (a b : Value) :
  isNumber h a = true -> strictEq a b = true -> isNumber h b = true.
Proof.
  intros Ha Hab. destruct (isNumber_inv a Ha) as [x [-> Hx]].
  destruct b; simpl in Hab; try discriminate.
  rewrite isNumber_number. exact (Num_eqb_finite x n Hab Hx).
Qed.

Lemma isNumber_self_equal (a : Value) :
  isNumber h a = true -> strictNe a a = false.
Proof.
  intros Ha. destruct (isNumber_inv a Ha) as [x [-> Hx]].
  unfold strictNe; simpl. rewrite (Num_eqb_finite_refl x Hx). reflexivity.
Qed.

Lemma isFunction_object (l : nat) :
  isFunction h (VObject l) = callable h l.
Proof.
  unfold isFunction; simpl. destruct (callable h l); reflexivity.
Qed.

End Facts.

(** A value with no own enumerable key is a zero value, whatever it is:
    the last test of [isZeroValue] succeeds when the others fail. *)
Lemma isZeroValue_no_keys (h : gmap nat Obj) (realm : Realm) (fuel : nat)
    (v len : Value) :
  isEmpty v = false ->
  GetV h realm fuel v "length" = Ok len ->
  ObjectKeys h v = Ok [] ->
  isZeroValue h realm fuel v = Ok true.
Proof.
  intros Hempty Hlen Hkeys. unfold isZeroValue. rewrite Hempty.
  destruct (strictEq v (VNumber Num.posZero)); [reflexivity|].
  rewrite Hlen. cbn [bind].
  destruct (strictEq len (VNumber Num.posZero)); [reflexivity|].
  rewrite Hkeys. reflexivity.
Qed.

(** Reading an unbound identifier throws. *)
Lemma isFloat_unbound (h : gmap nat Obj) (genv : string -> option Value)
    (params : Value) :
  genv "value" = None -> isFloat h genv params = Throw ReferenceError.
Proof.
  intros Hfree. unfold isFloat. rewrite Hfree. reflexivity.
Qed.

(** [isInt], which reads its own parameter, tells 3 from 3.5. *)
Lemma isInt_samples (h : gmap nat Obj) :
  isInt h (Sample.num 3) = true /\ isInt h Sample.threeAndHalf = false.
Proof. split; reflexivity. Qed.

(** A NaN in first position equals nothing. *)
Lemma isEquals_NaN_left (h : gmap nat Obj) (b : Value) :
  isEquals h (VNumber Num.NaN) b = false.
Proof.
  unfold isEquals. rewrite isNumber_number. cbn [Num.finite Num.NaN].
  destruct b; reflexivity.
Qed.

Lemma isNonZeroValue_complement (h : gmap nat Obj) (realm : Realm)
    (fuel : nat) (v : Value) (b : bool) :
  isZeroValue h realm fuel v = Ok b ->
  isNonZeroValue h realm fuel v = Ok (negb b).
Proof.
  intros Hz. unfold isNonZeroValue. rewrite Hz. reflexivity.
Qed.

(** What is not a function is not a Promise for [isPromise]. *)
Lemma isPromise_not_function (h : gmap nat Obj) (realm : Realm) (fuel : nat)
    (v : Value) :
  isFunction h v = false -> isPromise h realm fuel v = Ok false.
Proof.
  intros Hf. unfold isPromise. rewrite Hf. reflexivity.
Qed.

(** The sample equalities of [isEquals] that the code meets. *)
Lemma isEquals_samples :
  isEquals Sample.heap (Sample.num 0) Sample.negativeZero = false /\
  isEquals Sample.heap (Sample.num 1) (Sample.num 1) = true /\
  isEquals Sample.heap (VString "a") (VString "a") = true /\
  isEquals Sample.heap (VObject Sample.emptyObj1) (VObject Sample.emptyObj2) = false /\
  isEquals Sample.heap (VObject Sample.emptyObj1) (VObject Sample.emptyObj1) = true.
Proof. vm_compute. repeat split. Qed.

(** ** The claims *)

(** C8: for every value exactly one of [isNull], [isUndefined] or neither
    holds; [isEmpty] is the disjunction of the two, and [isDefined] is the
    negation of [isEmpty]. *)
Theorem definedness_partition (v : Value) :
  ((isNull v = true /\ isUndefined v = false) \/
   (isNull v = false /\ isUndefined v = true) \/
   (isNull v = false /\ isUndefined v = false)) /\
  isEmpty v = (isNull v || isUndefined v) /\
  isDefined v = negb (isEmpty v).
Proof.
  destruct v; simpl; repeat split; auto.
Qed.

(** C9: [isNumber] and [isFiniteNumber] agree on every value; they hold
    exactly for the Numbers that are finite, and both reject [NaN],
    [Infinity] and [-Infinity]. *)
Theorem isNumber_isFiniteNumber (h : gmap nat Obj) (v : Value) :
  isNumber h v = isFiniteNumber h v /\
  (isNumber h v = true <-> exists n, v = VNumber n /\ Num.finite n = true) /\
  isNumber h (VNumber Num.NaN) = false /\
  isFiniteNumber h (VNumber Num.NaN) = false /\
  isNumber h (VNumber Num.Infinity) = false /\
  isFiniteNumber h (VNumber Num.Infinity) = false /\
  isNumber h (VNumber Num.negInfinity) = false /\
  isFiniteNumber h (VNumber Num.negInfinity) = false.
Proof.
  split; [reflexivity|]. split; [|repeat split].
  split.
  - apply isNumber_inv.
  - intros [n [-> Hn]]. rewrite isNumber_number. exact Hn.
Qed.

(** C10: [isEquals] is symmetric, although only its first argument goes
    through [isNumber]. *)
Theorem isEquals_sym (h : gmap nat Obj) (a b : Value) :
  isEquals h a b = isEquals h b a.
Proof.
  unfold isEquals.
  destruct (isNumber h a) eqn:Ha, (isNumber h b) eqn:Hb;
    rewrite (strictEq_sym b a); destruct (strictEq a b) eqn:Hab.
  - apply strictEq_sym.
  - rewrite (isNumber_self_equal h a Ha), (isNumber_self_equal h b Hb).
    reflexivity.
  - rewrite (isNumber_strictEq h a b Ha Hab) in Hb. discriminate.
  - rewrite (isNumber_self_equal h a Ha). reflexivity.
  - rewrite strictEq_sym in Hab.
    rewrite (isNumber_strictEq h b a Hb Hab) in Ha. discriminate.
  - rewrite (isNumber_self_equal h b Hb). reflexivity.
  - reflexivity.
  - reflexivity.
Qed.

(** *** The dispatcher *)

Lemma tags_NoDup : NoDup tags.
Proof.
  unfold tags.
  repeat (apply NoDup_cons_2;
          [rewrite ?elem_of_cons, elem_of_nil; intuition discriminate|]).
  apply NoDup_nil_2.
Qed.

Lemma typeof_tags (h : gmap nat Obj) (v : Value) : In (typeof h v) tags.
Proof.
  destruct v; simpl; try (destruct (callable h l)); unfold tags; simpl; tauto.
Qed.

(** C2, as the code has it: [typeis] returns ["null"] when [isNull] holds,
    else ["array"] when [isArray] holds, else the [typeof] tag; every value
    gets one of ten pairwise distinct tags, each of which some value gets;
    the sample values get the tags the claim lists. *)
Theorem typeis_tags (h : gmap nat Obj) (v : Value) :
  typeis h v =
    (if isNull v then "null" else if isArray h v then "array" else typeof h v) /\
  In (typeis h v) tags /\
  NoDup tags /\ List.length tags = 10 /\
  map (typeis Sample.heap) tagSamples = tags /\
  typeis h VNull = "null" /\
  typeis Sample.heap (VObject Sample.anArray) = "array" /\
  typeis h (Sample.num 42) = "number" /\
  typeis h (VString "x") = "string" /\
  typeis h VUndefined = "undefined" /\
  typeis Sample.heap (VObject Sample.aFunction) = "function".
Proof.
  split; [reflexivity|]. split.
  - unfold typeis. destruct (isNull v); [unfold tags; simpl; tauto|].
    destruct (isArray h v); [unfold tags; simpl; tauto|]. apply typeof_tags.
  - split; [apply tags_NoDup|]. repeat split.
Qed.

(** C2, counterexample: no nine tags cover the results of [typeis], since
    ten values of the sample heap get ten different results. *)
Lemma typeis_exceeds_nine_tags :
  ~ exists nine : list string,
      List.length nine = 9 /\ forall v, In (typeis Sample.heap v) nine.
Proof.
  intros [nine [Hlen Hall]].
  assert (Hincl : incl tags nine).
  { assert (Hmap : map (typeis Sample.heap) tagSamples = tags) by reflexivity.
    intros t Ht. rewrite <- Hmap in Ht.
    apply in_map_iff in Ht. destruct Ht as [v [<- _]]. apply Hall. }
  assert (Hnd : List.NoDup tags) by (apply NoDup_ListNoDup, tags_NoDup).
  pose proof (List.NoDup_incl_length Hnd Hincl) as Hle.
  rewrite Hlen in Hle. simpl in Hle. lia.
Qed.

(** *** Equality *)

(** C1, at the failing input: [isEquals(NaN, NaN)] is [false], because
    [isNumber(NaN)] is [false] and the identity branch compares [NaN] with
    itself. *)
Theorem isEquals_NaN_NaN (h : gmap nat Obj) :
  isNumber h (VNumber Num.NaN) = false /\
  strictEq (VNumber Num.NaN) (VNumber Num.NaN) = false /\
  isEquals h (VNumber Num.NaN) (VNumber Num.NaN) = false.
Proof.
  split; [apply isNumber_number|]. split; [reflexivity|].
  apply isEquals_NaN_left.
Qed.

(** *** Numeric subkinds *)

(** C3, at the failing input: in a global environment that does not bind
    [value], [isFloat] throws a ReferenceError whatever it is given. *)
Theorem isFloat_throws (h : gmap nat Obj) (params : Value) :
  isFloat h Sample.globals params = Throw ReferenceError /\
  isFloat h Sample.globals Sample.threeAndHalf = Throw ReferenceError /\
  isFloat h Sample.globals (Sample.num 3) = Throw ReferenceError.
Proof.
  assert (Hfree : Sample.globals "value" = None) by reflexivity.
  repeat split; apply isFloat_unbound; exact Hfree.
Qed.

(** C4, at the failing input: the result of [isFloat] does not depend on
    its argument, so [isFloat(3.5)] and [isFloat(3)] never differ. *)
Theorem isFloat_ignores_argument (h : gmap nat Obj)
    (genv : string -> option Value) (p q : Value) :
  isFloat h genv p = isFloat h genv q /\
  isFloat h genv Sample.threeAndHalf = isFloat h genv (Sample.num 3).
Proof. split; reflexivity. Qed.

(** *** Zero values *)

(** C6, at the failing inputs: [isZeroValue(5)] and [isZeroValue(true)]
    are [true], as [isZeroValue] is for every Number and every Boolean. *)
Theorem isZeroValue_five_and_true (n : spec_float) (b : bool) :
  isZeroValue Sample.heap Sample.realm Sample.fuel (VNumber n) = Ok true /\
  isZeroValue Sample.heap Sample.realm Sample.fuel (VBoolean b) = Ok true /\
  isZeroValue Sample.heap Sample.realm Sample.fuel (Sample.num 5) = Ok true /\
  isZeroValue Sample.heap Sample.realm Sample.fuel (VBoolean true) = Ok true.
Proof.
  assert (Hnum : forall m, isZeroValue Sample.heap Sample.realm Sample.fuel
                             (VNumber m) = Ok true).
  { intros m. apply (isZeroValue_no_keys _ _ _ _ VUndefined); reflexivity. }
  assert (Hbool : forall c, isZeroValue Sample.heap Sample.realm Sample.fuel
                              (VBoolean c) = Ok true).
  { intros c. apply (isZeroValue_no_keys _ _ _ _ VUndefined); reflexivity. }
  split; [apply Hnum|]. split; [apply Hbool|]. split; [apply Hnum | apply Hbool].
Qed.

(** *** Promises *)

(** C5, at the failing input: the constructor name of a Promise instance
    is ["Promise"], and [isPromise] answers [false] for it. *)
Theorem isPromise_rejects_promise :
  getConstructorName Sample.heap Sample.realm Sample.fuel
    (VObject Sample.aPromise) = Ok (VString "Promise") /\
  isPromise Sample.heap Sample.realm Sample.fuel (VObject Sample.aPromise)
    = Ok false.
Proof.
  split; [vm_compute; reflexivity|].
  apply isPromise_not_function. rewrite isFunction_object. reflexivity.
Qed.

(** *** Inheritance *)

Section ExtendOf.

Variable h : gmap nat Obj.
Variable realm : Realm.

Lemma GetV_ownPrototype (c : nat) (v : Value) (fuel : nat) :
  ownPrototype h c = Some v ->
  GetV h realm (S fuel) (VObject c) "prototype" = Ok v.
Proof.
  unfold ownPrototype. simpl.
  destruct (h !! c) as [o|]; [|discriminate].
  destruct (ownProperty o "prototype") as [p|]; [|discriminate].
  simpl. intros [= <-]. reflexivity.
Qed.

Lemma protoReach_step (l b : nat) (o : Obj) (p : nat) :
  h !! l = Some o -> o_proto o = Some p -> l <> b ->
  (protoReach h l b <-> protoReach h p b).
Proof.
  intros Hl Hp Hne. split.
  - intros Hr. inversion Hr as [|l0 o0 p0 l1 Hl0 Hp0 Hrest]; subst.
    + contradiction.
    + rewrite Hl in Hl0. injection Hl0 as <-.
      rewrite Hp in Hp0. injection Hp0 as <-. exact Hrest.
  - intros Hr. exact (reach_link h l o p b Hl Hp Hr).
Qed.

Lemma protoReach_last (l b : nat) :
  (h !! l = None \/ exists o, h !! l = Some o /\ o_proto o = None) ->
  l <> b -> ~ protoReach h l b.
Proof.
  intros Hend Hne Hr.
  inversion Hr as [|l0 o0 p0 l1 Hl0 Hp0 Hrest]; subst.
  - contradiction.
  - destruct Hend as [Hnone | [o [Hl Hp]]].
    + rewrite Hnone in Hl0. discriminate.
    + rewrite Hl in Hl0. injection Hl0 as <-.
      rewrite Hp in Hp0. discriminate.
Qed.

(** The loop, started on an object whose chain ends after [n] links,
    returns within [n + 2] turns and tells whether the chain passes
    through the prototype of the superclass. *)
Lemma isExtendOf_loop_reaches (fuel0 : nat) (superClass : Value) (b : nat) :
  GetV h realm fuel0 superClass "prototype" = Ok (VObject b) ->
  forall (a n : nat), chainEnds h a n ->
  forall fuel, n + 2 <= fuel ->
  exists r : bool,
    isExtendOf_loop h realm fuel0 superClass fuel (VObject a) = Ok r /\
    (r = true <-> protoReach h a b).
Proof.
  intros Hsup a n Hchain.
  induction Hchain as [l o Hl Hp | l Hl | l o p n Hl Hp Hchain IH];
    intros fuel Hfuel.
  - destruct fuel as [|[|fuel]]; try lia. simpl. rewrite Hsup. simpl.
    destruct (Nat.eqb_spec l b) as [-> | Hne].
    + exists true. split; [reflexivity|]. split; [intros _; apply reach_here | reflexivity].
    + rewrite Hl, Hp. simpl. exists false. split; [reflexivity|].
      split; [discriminate|]. intros Hr. exfalso.
      apply (protoReach_last l b); eauto.
  - destruct fuel as [|[|fuel]]; try lia. simpl. rewrite Hsup. simpl.
    destruct (Nat.eqb_spec l b) as [-> | Hne].
    + exists true. split; [reflexivity|]. split; [intros _; apply reach_here | reflexivity].
    + rewrite Hl. simpl. exists false. split; [reflexivity|].
      split; [discriminate|]. intros Hr. exfalso.
      apply (protoReach_last l b); eauto.
  - destruct fuel as [|fuel]; try lia.
    cbn [isExtendOf_loop ToBoolean]. rewrite Hsup. cbn [bind strictEq].
    destruct (Nat.eqb_spec l b) as [-> | Hne].
    + exists true. split; [reflexivity|]. split; [intros _; apply reach_here | reflexivity].
    + cbn [getPrototypeOf]. rewrite Hl, Hp. cbn [bind].
      destruct (IH fuel ltac:(lia)) as [r [Hr Hiff]].
      exists r. split; [exact Hr|].
      rewrite (protoReach_step l b o p Hl Hp Hne). exact Hiff.
Qed.

End ExtendOf.

(** C7, as the code has it: for constructors whose own [prototype]
    properties are the objects [a] and [b], with the prototype chain of
    [a] ending after [n] links and [n + 2] units of fuel, [isExtendOf]
    returns, and returns [true] exactly when the chain that starts at [a]
    itself passes through [b]; a constructor therefore extends itself. *)
Theorem isExtendOf_reaches (h : gmap nat Obj) (realm : Realm)
    (sub sup a b n fuel : nat) :
  ownPrototype h sub = Some (VObject a) ->
  ownPrototype h sup = Some (VObject b) ->
  chainEnds h a n ->
  n + 2 <= fuel ->
  exists r : bool,
    isExtendOf h realm fuel (VObject sub) (VObject sup) = Ok r /\
    (r = true <-> protoReach h a b) /\
    (sub = sup -> r = true).
Proof.
  intros Hsub Hsup Hchain Hfuel.
  destruct fuel as [|fuel]; [lia|].
  pose proof (GetV_ownPrototype h realm sub _ fuel Hsub) as Ga.
  pose proof (GetV_ownPrototype h realm sup _ fuel Hsup) as Gb.
  destruct (isExtendOf_loop_reaches h realm (S fuel) (VObject sup) b Gb
              a n Hchain (S fuel) Hfuel) as [r [Hr Hiff]].
  exists r. unfold isExtendOf. rewrite Ga. cbn [bind].
  split; [exact Hr|]. split; [exact Hiff|].
  intros ->. apply Hiff.
  rewrite Hsub in Hsup. injection Hsup as <-. apply reach_here.
Qed.

(** C7, witness: [class Sub extends Base] in the sample heap. *)
Lemma isExtendOf_reaches_witness :
  exists r : bool,
    isExtendOf Sample.heap Sample.realm Sample.fuel
      (VObject Sample.Sub) (VObject Sample.Base) = Ok r /\
    (r = true <-> protoReach Sample.heap Sample.SubProto Sample.BaseProto) /\
    (Sample.Sub = Sample.Base -> r = true).
Proof.
  apply (isExtendOf_reaches Sample.heap Sample.realm Sample.Sub Sample.Base
           Sample.SubProto Sample.BaseProto 2 Sample.fuel).
  - reflexivity.
  - reflexivity.
  - eapply chain_link; [vm_compute; reflexivity | reflexivity |].
    eapply chain_link; [vm_compute; reflexivity | reflexivity |].
    eapply chain_null; [vm_compute; reflexivity | reflexivity].
  - unfold Sample.fuel. lia.
Defined.

(** C7, counterexample: a constructor tested against itself gives [true]. *)
Lemma isExtendOf_same_constructor :
  isExtendOf Sample.heap Sample.realm Sample.fuel
    (VObject Sample.Base) (VObject Sample.Base) = Ok true.
Proof. vm_compute. reflexivity. Qed.

(** ** Further properties of the predicates *)

(** *** Self-equality and the kinds of values *)

Lemma Num_eqb_refl (x : spec_float) :
  Num.eqb x x = match x with S754_nan => false | _ => true end.
Proof.
  destruct x as [s|s| |s m e]; try reflexivity.
  - destruct s; reflexivity.
  - apply Num_eqb_finite_refl. reflexivity.
Qed.

Lemma strictEq_refl (v : Value) :
  strictEq v v = match v with VNumber S754_nan => false | _ => true end.
Proof.
  destruct v; simpl; try reflexivity.
  - destruct b; reflexivity.
  - rewrite Num_eqb_refl. destruct n; reflexivity.
  - apply String.eqb_refl.
  - apply Nat.eqb_refl.
  - apply Z.eqb_refl.
  - apply Nat.eqb_refl.
Qed.

(** X1: [NaN] is the only value that [isNotANumber] accepts: every other
    value, of any type, is [===] to itself. *)
Theorem isNotANumber_only_NaN (v : Value) :
  isNotANumber v = true <-> v = VNumber Num.NaN.
Proof.
  unfold isNotANumber, strictNe. rewrite strictEq_refl. split.
  - destruct v as [| | |n| | | |]; try discriminate.
    destruct n; try discriminate. reflexivity.
  - intros ->. reflexivity.
Qed.

(** X2: the double negation test of [isBoolean] accepts the two Booleans
    and nothing else, so it agrees with a [typeof] test. *)
Theorem isBoolean_typeof (h : gmap nat Obj) (v : Value) :
  isBoolean v = String.eqb (typeof h v) "boolean" /\
  (isBoolean v = true <-> exists b, v = VBoolean b).
Proof.
  split.
  - destruct v; simpl; try reflexivity.
    + destruct b; reflexivity.
    + destruct (callable h l); reflexivity.
  - split.
    + destruct v; simpl; try discriminate. intros _. exists b. reflexivity.
    + intros [b ->]. destruct b; reflexivity.
Qed.

(** X3: the predicates [isUndefined], [isNull], [isBoolean], [isNumber],
    [isInfinity], [isNotANumber], [isString], [isSymbol], [isBigInt],
    [isFunction] and [isObject] partition the values: exactly one of them
    holds of any value. *)
Theorem kinds_partition (h : gmap nat Obj) (v : Value) :
  countTrue (kinds h v) = 1.
Proof.
  unfold kinds, isNotANumber, strictNe. rewrite strictEq_refl.
  destruct v as [| |b|n|s|id|z|l]; try reflexivity.
  - destruct b; reflexivity.
  - destruct n as [s|s| |s m e]; try reflexivity; destruct s; reflexivity.
  - unfold isFunction, isObject, isString, isSymbol, isBigInt, isNumber.
    simpl. destruct (callable h l); reflexivity.
Qed.

(** *** Signs *)

(** X4: a finite Number is positive, negative or [===] to zero, and only
    one of the three; nothing else is any of the three. *)
Theorem sign_trichotomy (h : gmap nat Obj) (v : Value) :
  countTrue [isPositive h v; isNegative h v; strictEq v (VNumber Num.posZero)]
  = if isNumber h v then 1 else 0.
Proof.
  destruct v as [| |b|n|s|id|z|l]; try reflexivity.
  - destruct n as [s|s| |s m e]; try reflexivity; destruct s; reflexivity.
  - unfold isPositive, isNegative, isNumber. simpl.
    destruct (callable h l); reflexivity.
Qed.

(** X5: [isUnsigned] is [isNumber] without [isNegative] (so it accepts
    [-0]), and [isUInt] is the conjunction of [isInt] and [isUnsigned]. *)
Theorem isUnsigned_not_negative (h : gmap nat Obj) (v : Value) :
  isUnsigned h v = isNumber h v && negb (isNegative h v) /\
  isUInt h v = isInt h v && isUnsigned h v /\
  isUnsigned h Sample.negativeZero = true.
Proof.
  split; [|split; [|reflexivity]].
  - destruct v as [| |b|n|s|id|z|l]; try reflexivity.
    + destruct n as [s|s| |s m e]; try reflexivity; destruct s; reflexivity.
    + unfold isUnsigned, isNegative, isNumber. simpl.
      destruct (callable h l); reflexivity.
  - unfold isUInt, isUnsigned, isInt.
    destruct (isNumber h v); simpl; reflexivity.
Qed.

(** *** The dispatcher and the predicates *)

Lemma typeis_object (h : gmap nat Obj) (l : nat) :
  typeis h (VObject l) =
    if isArray h (VObject l) then "array"
    else if callable h l then "function" else "object".
Proof. reflexivity. Qed.

(** X6: the tag of the dispatcher agrees with the predicate of the same
    name; the tag ["number"] also covers [NaN] and the infinities, and an
    array is named ["array"] whether [typeof] says ["object"] or
    ["function"]. *)
Theorem typeis_agrees (h : gmap nat Obj) (v : Value) :
  String.eqb (typeis h v) "null" = isNull v /\
  String.eqb (typeis h v) "undefined" = isUndefined v /\
  String.eqb (typeis h v) "boolean" = isBoolean v /\
  String.eqb (typeis h v) "string" = isString h v /\
  String.eqb (typeis h v) "symbol" = isSymbol h v /\
  String.eqb (typeis h v) "bigint" = isBigInt h v /\
  String.eqb (typeis h v) "array" = isArray h v /\
  String.eqb (typeis h v) "number" =
    isNumber h v || isInfinity v || isNotANumber v /\
  String.eqb (typeis h v) "function" = isFunction h v && negb (isArray h v) /\
  String.eqb (typeis h v) "object" = isObject h v && negb (isArray h v).
Proof.
  unfold isNotANumber, strictNe. rewrite strictEq_refl.
  destruct v as [| |b|n|s|id|z|l].
  1-2, 5-7: repeat split; reflexivity.
  - destruct b; repeat split; reflexivity.
  - repeat split; try reflexivity.
    destruct n as [s|s| |s m e]; try reflexivity; destruct s; reflexivity.
  - rewrite typeis_object. unfold isString, isSymbol, isBigInt, isNumber,
      isFunction, isObject, isInfinity. simpl typeof.
    destruct (isArray h (VObject l)), (callable h l); repeat split; reflexivity.
Qed.

(** X7: with a falsy [type] (no argument, [null], the empty string, ...)
    [makeTypeOfCallback] tests for ["object"], which unlike [isObject]
    accepts [null]. *)
Theorem makeTypeOfCallback_default (h : gmap nat Obj) (type v : Value) :
  ToBoolean type = false ->
  makeTypeOfCallback h type v = isObject h v || isNull v.
Proof.
  intros Hfalsy. unfold makeTypeOfCallback. rewrite Hfalsy.
  destruct v as [| |b|n|s|id|z|l]; try reflexivity.
  unfold isObject. simpl. destruct (callable h l); reflexivity.
Qed.

Lemma makeTypeOfCallback_default_witness :
  makeTypeOfCallback Sample.heap VUndefined VNull
  = isObject Sample.heap VNull || isNull VNull.
Proof.
  apply (makeTypeOfCallback_default Sample.heap VUndefined VNull).
  reflexivity.
Defined.

(** *** Property lookups return *)

Lemma isDefined_isEmpty (v : Value) : isEmpty v = negb (isDefined v).
Proof. destruct v; reflexivity. Qed.

Lemma isFunction_inv (h : gmap nat Obj) (v : Value) :
  isFunction h v = true -> exists l, v = VObject l /\ callable h l = true.
Proof.
  destruct v; try discriminate. rewrite isFunction_object.
  intros Hc. exists l. split; [reflexivity | exact Hc].
Qed.

Section Lookups.

Variable h : gmap nat Obj.
Variable realm : Realm.

Lemma OrdinaryGet_returns (l n : nat) (key : string) :
  chainEnds h l n ->
  forall fuel, n < fuel -> exists v, OrdinaryGet h fuel l key = Ok v.
Proof.
  induction 1 as [l o Hl Hp | l Hl | l o p n Hl Hp Hchain IH];
    intros fuel Hfuel; (destruct fuel as [|fuel]; [lia|]); simpl; rewrite Hl.
  - destruct (ownProperty o key) as [q|]; [eauto|]. rewrite Hp. eauto.
  - eauto.
  - destruct (ownProperty o key) as [q|]; [eauto|]. rewrite Hp.
    apply IH. lia.
Qed.

(** More fuel does not change what a lookup found. *)
Lemma OrdinaryGet_fuel (fuel : nat) :
  forall (l : nat) (key : string) (v : Value) (fuel' : nat),
  OrdinaryGet h fuel l key = Ok v -> fuel <= fuel' ->
  OrdinaryGet h fuel' l key = Ok v.
Proof.
  induction fuel as [|fuel IH]; intros l key v fuel' Hget Hle;
    [discriminate|].
  destruct fuel' as [|fuel']; [lia|]. simpl in *.
  destruct (h !! l) as [o|]; [|exact Hget].
  destruct (ownProperty o key) as [q|]; [exact Hget|].
  destruct (o_proto o) as [p|]; [|exact Hget].
  apply IH; [exact Hget | lia].
Qed.

Lemma GetV_fuel (fuel fuel' : nat) (value : Value) (key : string) (v : Value) :
  GetV h realm fuel value key = Ok v -> fuel <= fuel' ->
  GetV h realm fuel' value key = Ok v.
Proof.
  intros Hget Hle. destruct value; simpl in *; try discriminate;
    try (eapply OrdinaryGet_fuel; eassumption).
  destruct (stringOwnProperty s key); [exact Hget|].
  eapply OrdinaryGet_fuel; eassumption.
Qed.

Variable bound : nat.
Hypothesis Hchains : chainsWithin h bound.

Lemma GetV_returns (fuel : nat) (value : Value) (key : string) :
  bound <= fuel -> isDefined value = true ->
  exists v, GetV h realm fuel value key = Ok v.
Proof.
  intros Hfuel Hdef.
  assert (Hobj : forall l, exists v, OrdinaryGet h fuel l key = Ok v).
  { intros l. destruct (Hchains l) as [n [Hn Hlt]].
    apply (OrdinaryGet_returns l n key Hn). lia. }
  destruct value; try discriminate; simpl; try apply Hobj.
  destruct (stringOwnProperty s key); [eauto | apply Hobj].
Qed.

Lemma ObjectKeys_returns (value : Value) :
  isDefined value = true -> exists keys, ObjectKeys h value = Ok keys.
Proof.
  destruct value; try discriminate; intros _; simpl; eauto.
  destruct (h !! l); eauto.
Qed.

Lemma getConstructorName_returns (fuel : nat) (value : Value) :
  bound <= fuel ->
  exists name, getConstructorName h realm fuel value = Ok name.
Proof.
  intros Hfuel. unfold getConstructorName.
  destruct (isDefined value) eqn:Hdef; [|eauto].
  destruct (GetV_returns fuel value "constructor" Hfuel Hdef) as [c Hc].
  rewrite Hc. cbn [bind].
  destruct (isFunction h c) eqn:Hfun; [|eauto].
  destruct (isFunction_inv h c Hfun) as [l [-> _]].
  apply GetV_returns; [exact Hfuel | reflexivity].
Qed.

Lemma named_returns (fuel : nat) (value : Value) (expected : string) :
  bound <= fuel ->
  exists b,
    (if isFunction h value then
       let* name := getConstructorName h realm fuel value in
       Ok (strictEq name (VString expected))
     else Ok false) = Ok b.
Proof.
  intros Hfuel. destruct (isFunction h value); [|eauto].
  destruct (getConstructorName_returns fuel value Hfuel) as [name Hname].
  rewrite Hname. simpl. eauto.
Qed.

Lemma isZeroValue_returns (fuel : nat) (value : Value) :
  bound <= fuel -> exists b, isZeroValue h realm fuel value = Ok b.
Proof.
  intros Hfuel. unfold isZeroValue. rewrite isDefined_isEmpty.
  destruct (isDefined value) eqn:Hdef; [|simpl; eauto]. simpl.
  destruct (strictEq value (VNumber Num.posZero)); [eauto|].
  destruct (GetV_returns fuel value "length" Hfuel Hdef) as [len Hlen].
  rewrite Hlen. cbn [bind].
  destruct (strictEq len (VNumber Num.posZero)); [eauto|].
  destruct (ObjectKeys_returns value Hdef) as [keys Hkeys].
  rewrite Hkeys. simpl. eauto.
Qed.

End Lookups.

Lemma Sample_chainsWithin : chainsWithin Sample.heap 4.
Proof.
  intros l. destruct (Sample.heap !! l) as [o|] eqn:Hl.
  - apply elem_of_list_to_map_2 in Hl. unfold Sample.objects in Hl.
    repeat (apply elem_of_cons in Hl;
            destruct Hl as [Hl | Hl];
            [ injection Hl as -> ->; eexists; split;
              [ repeat (eapply chain_link;
                        [vm_compute; reflexivity | reflexivity |]);
                eapply chain_null; [vm_compute; reflexivity | reflexivity]
              | lia ]
            | ]).
    apply elem_of_nil in Hl. contradiction.
  - exists 0. split; [apply chain_absent; exact Hl | lia].
Qed.

(** X8: on a heap whose prototype chains all end in fewer links than
    there is fuel, the predicates that read properties return a value for
    every argument: none of them throws, [null] and [undefined]
    included. *)
Theorem lookups_return (h : gmap nat Obj) (realm : Realm)
    (bound fuel : nat) (v : Value) :
  chainsWithin h bound -> bound <= fuel ->
  (exists name, getConstructorName h realm fuel v = Ok name) /\
  (exists b, isZeroValue h realm fuel v = Ok b) /\
  (exists b, isNonZeroValue h realm fuel v = Ok b) /\
  (exists b, isArrayLike h realm fuel v = Ok b) /\
  (exists b, isGenFunc h realm fuel v = Ok b) /\
  (exists b, isAsyncFunc h realm fuel v = Ok b) /\
  (exists b, isPromise h realm fuel v = Ok b) /\
  (exists b, isMap h realm fuel v = Ok b) /\
  (exists b, isSet h realm fuel v = Ok b).
Proof.
  intros Hchains Hfuel.
  split; [exact (getConstructorName_returns h realm bound Hchains fuel v Hfuel)|].
  destruct (isZeroValue_returns h realm bound Hchains fuel v Hfuel) as [z Hz].
  split; [eauto|].
  split; [exists (negb z); apply isNonZeroValue_complement; exact Hz|].
  split.
  { unfold isArrayLike. destruct (isDefined v) eqn:Hdef; [|eauto].
    destruct (GetV_returns h realm bound Hchains fuel v "length" Hfuel Hdef)
      as [len Hlen].
    rewrite Hlen. simpl. eauto. }
  repeat split; apply (named_returns h realm bound Hchains); exact Hfuel.
Qed.

Lemma lookups_return_witness :
  (exists name, getConstructorName Sample.heap Sample.realm Sample.fuel
                  (VObject Sample.aPromise) = Ok name) /\
  (exists b, isZeroValue Sample.heap Sample.realm Sample.fuel
               (VObject Sample.aPromise) = Ok b) /\
  (exists b, isNonZeroValue Sample.heap Sample.realm Sample.fuel
               (VObject Sample.aPromise) = Ok b) /\
  (exists b, isArrayLike Sample.heap Sample.realm Sample.fuel
               (VObject Sample.aPromise) = Ok b) /\
  (exists b, isGenFunc Sample.heap Sample.realm Sample.fuel
               (VObject Sample.aPromise) = Ok b) /\
  (exists b, isAsyncFunc Sample.heap Sample.realm Sample.fuel
               (VObject Sample.aPromise) = Ok b) /\
  (exists b, isPromise Sample.heap Sample.realm Sample.fuel
               (VObject Sample.aPromise) = Ok b) /\
  (exists b, isMap Sample.heap Sample.realm Sample.fuel
               (VObject Sample.aPromise) = Ok b) /\
  (exists b, isSet Sample.heap Sample.realm Sample.fuel
               (VObject Sample.aPromise) = Ok b).
Proof.
  apply (lookups_return Sample.heap Sample.realm 4 Sample.fuel
           (VObject Sample.aPromise)).
  - exact Sample_chainsWithin.
  - unfold Sample.fuel. lia.
Defined.

(** X9: [isGenFunc], [isAsyncFunc], [isPromise], [isMap] and [isSet]
    accept nothing that is not a function, and at most one of the five
    accepts a given value. *)
Theorem named_kinds_exclusive (h : gmap nat Obj) (realm : Realm)
    (fuel : nat) (v : Value) :
  countTrue [accepts (isGenFunc h realm fuel v);
             accepts (isAsyncFunc h realm fuel v);
             accepts (isPromise h realm fuel v);
             accepts (isMap h realm fuel v);
             accepts (isSet h realm fuel v)]
  <= if isFunction h v then 1 else 0.
Proof.
  unfold isGenFunc, isAsyncFunc, isPromise, isMap, isSet.
  destruct (isFunction h v); [|simpl; lia].
  destruct (getConstructorName h realm fuel v) as [name| |]; [|simpl; lia..].
  destruct name; simpl; try lia.
  destruct (String.eqb_spec s "GeneratorFunction") as [-> | _]; [simpl; lia|].
  destruct (String.eqb_spec s "AsyncFunction") as [-> | _]; [simpl; lia|].
  destruct (String.eqb_spec s "Promise") as [-> | _]; [simpl; lia|].
  destruct (String.eqb_spec s "Map") as [-> | _]; [simpl; lia|].
  destruct (String.eqb s "Set"); simpl; lia.
Qed.

(** *** Inheritance as an order *)

Section Order.

Variable h : gmap nat Obj.
Variable realm : Realm.

Lemma protoReach_trans (a b c : nat) :
  protoReach h a b -> protoReach h b c -> protoReach h a c.
Proof.
  induction 1 as [l | l o p l' Hl Hp Hrest IH]; intros Hbc.
  - exact Hbc.
  - exact (reach_link h l o p c Hl Hp (IH Hbc)).
Qed.

Lemma chainEnds_unique (a n m : nat) :
  chainEnds h a n -> chainEnds h a m -> n = m.
Proof.
  intros Hn. revert m.
  induction Hn as [l o Hl Hp | l Hl | l o p n Hl Hp Hchain IH];
    intros m Hm; inversion Hm as [l0 o0 Hl0 Hp0 | l0 Hl0 | l0 o0 p0 m0 Hl0 Hp0 Hm0];
    subst; try reflexivity; try congruence.
  rewrite Hl in Hl0. injection Hl0 as <-.
  rewrite Hp in Hp0. injection Hp0 as <-.
  f_equal. apply IH. exact Hm0.
Qed.

(** Climbing shortens what is left of the chain. *)
Lemma chainEnds_reach (a b n : nat) :
  chainEnds h a n -> protoReach h a b ->
  exists m, chainEnds h b m /\ (a = b \/ m < n).
Proof.
  intros Hn Hreach. revert n Hn.
  induction Hreach as [l | l o p l' Hl Hp Hrest IH]; intros n Hn.
  - exists n. split; [exact Hn | left; reflexivity].
  - inversion Hn as [l0 o0 Hl0 Hp0 | l0 Hl0 | l0 o0 p0 n0 Hl0 Hp0 Hn0];
      subst; try congruence.
    rewrite Hl in Hl0. injection Hl0 as <-.
    rewrite Hp in Hp0. injection Hp0 as <-.
    destruct (IH n0 Hn0) as [m [Hm Hcmp]].
    exists m. split; [exact Hm|]. right. destruct Hcmp as [-> | Hlt].
    + rewrite (chainEnds_unique l' m n0 Hm Hn0). lia.
    + lia.
Qed.

Lemma isExtendOf_own (sub sup a b n fuel : nat) :
  ownPrototype h sub = Some (VObject a) ->
  ownPrototype h sup = Some (VObject b) ->
  chainEnds h a n -> n + 2 <= fuel ->
  exists r : bool,
    isExtendOf h realm fuel (VObject sub) (VObject sup) = Ok r /\
    (r = true <-> protoReach h a b).
Proof.
  intros Hsub Hsup Hchain Hfuel.
  destruct fuel as [|fuel]; [lia|].
  pose proof (GetV_ownPrototype h realm sub _ fuel Hsub) as Ga.
  pose proof (GetV_ownPrototype h realm sup _ fuel Hsup) as Gb.
  destruct (isExtendOf_loop_reaches h realm (S fuel) (VObject sup) b Gb
              a n Hchain (S fuel) Hfuel) as [r [Hr Hiff]].
  exists r. unfold isExtendOf. rewrite Ga. cbn [bind].
  split; [exact Hr | exact Hiff].
Qed.

Lemma isExtendOf_true_reach (sub sup a b n fuel : nat) :
  ownPrototype h sub = Some (VObject a) ->
  ownPrototype h sup = Some (VObject b) ->
  chainEnds h a n -> n + 2 <= fuel ->
  (isExtendOf h realm fuel (VObject sub) (VObject sup) = Ok true <->
   protoReach h a b).
Proof.
  intros Hsub Hsup Hchain Hfuel.
  destruct (isExtendOf_own sub sup a b n fuel Hsub Hsup Hchain Hfuel)
    as [r [Hr Hiff]].
  rewrite Hr. split.
  - intros [= ->]. apply Hiff. reflexivity.
  - intros Hreach. f_equal. apply Hiff. exact Hreach.
Qed.

End Order.

(** X10: [isExtendOf] is transitive on constructors that own their
    [prototype]: if [A] extends [B] and [B] extends [C], then [A] extends
    [C]. *)
Theorem isExtendOf_trans (h : gmap nat Obj) (realm : Realm)
    (A B C a b c n fuel : nat) :
  ownPrototype h A = Some (VObject a) ->
  ownPrototype h B = Some (VObject b) ->
  ownPrototype h C = Some (VObject c) ->
  chainEnds h a n -> n + 2 <= fuel ->
  isExtendOf h realm fuel (VObject A) (VObject B) = Ok true ->
  isExtendOf h realm fuel (VObject B) (VObject C) = Ok true ->
  isExtendOf h realm fuel (VObject A) (VObject C) = Ok true.
Proof.
  intros HA HB HC Hchain Hfuel HAB HBC.
  apply (isExtendOf_true_reach h realm A B a b n fuel HA HB Hchain Hfuel) in HAB.
  destruct (chainEnds_reach h a b n Hchain HAB) as [m [Hm Hcmp]].
  assert (Hmfuel : m + 2 <= fuel).
  { destruct Hcmp as [-> | Hlt];
      [rewrite (chainEnds_unique h b m n Hm Hchain)|]; lia. }
  apply (isExtendOf_true_reach h realm B C b c m fuel HB HC Hm Hmfuel) in HBC.
  apply (isExtendOf_true_reach h realm A C a c n fuel HA HC Hchain Hfuel).
  exact (protoReach_trans h a b c HAB HBC).
Qed.

Lemma isExtendOf_trans_witness :
  isExtendOf Sample.heap Sample.realm Sample.fuel
    (VObject Sample.Sub) (VObject Sample.ObjectCtor) = Ok true.
Proof.
  apply (isExtendOf_trans Sample.heap Sample.realm
           Sample.Sub Sample.Base Sample.ObjectCtor
           Sample.SubProto Sample.BaseProto Sample.ObjectPrototype
           2 Sample.fuel).
  - reflexivity.
  - reflexivity.
  - reflexivity.
  - eapply chain_link; [vm_compute; reflexivity | reflexivity |].
    eapply chain_link; [vm_compute; reflexivity | reflexivity |].
    eapply chain_null; [vm_compute; reflexivity | reflexivity].
  - unfold Sample.fuel. lia.
  - vm_compute. reflexivity.
  - vm_compute. reflexivity.
Defined.

(** X11: two constructors that extend each other have one and the same
    [prototype] object: the relation is antisymmetric on prototypes. *)
Theorem isExtendOf_antisym (h : gmap nat Obj) (realm : Realm)
    (A B a b n fuel : nat) :
  ownPrototype h A = Some (VObject a) ->
  ownPrototype h B = Some (VObject b) ->
  chainEnds h a n -> n + 2 <= fuel ->
  isExtendOf h realm fuel (VObject A) (VObject B) = Ok true ->
  isExtendOf h realm fuel (VObject B) (VObject A) = Ok true ->
  a = b.
Proof.
  intros HA HB Hchain Hfuel HAB HBA.
  apply (isExtendOf_true_reach h realm A B a b n fuel HA HB Hchain Hfuel) in HAB.
  destruct (chainEnds_reach h a b n Hchain HAB) as [m [Hm [Heq | Hlt]]];
    [exact Heq|].
  assert (Hmfuel : m + 2 <= fuel) by lia.
  apply (isExtendOf_true_reach h realm B A b a m fuel HB HA Hm Hmfuel) in HBA.
  destruct (chainEnds_reach h b a m Hm HBA) as [k [Hk [Heq | Hlt']]];
    [symmetry; exact Heq|].
  pose proof (chainEnds_unique h a k n Hk Hchain). lia.
Qed.

Lemma isExtendOf_antisym_witness : Sample.BaseProto = Sample.BaseProto.
Proof.
  apply (isExtendOf_antisym Sample.heap Sample.realm
           Sample.Base Sample.Base Sample.BaseProto Sample.BaseProto
           1 Sample.fuel).
  - reflexivity.
  - reflexivity.
  - eapply chain_link; [vm_compute; reflexivity | reflexivity |].
    eapply chain_null; [vm_compute; reflexivity | reflexivity].
  - unfold Sample.fuel. lia.
  - vm_compute. reflexivity.
  - vm_compute. reflexivity.
Defined.

(** X12: when [subClass.prototype] is falsy (a function without
    [prototype], any plain object) the loop does not start: the answer is
    [false] and [superClass] is never looked at, not even to throw. *)
Theorem isExtendOf_no_prototype (h : gmap nat Obj) (realm : Realm)
    (fuel : nat) (subClass superClass p : Value) :
  0 < fuel ->
  GetV h realm fuel subClass "prototype" = Ok p ->
  ToBoolean p = false ->
  isExtendOf h realm fuel subClass superClass = Ok false.
Proof.
  intros Hfuel Hget Hfalsy. unfold isExtendOf. rewrite Hget. cbn [bind].
  destruct fuel as [|fuel]; [lia|]. simpl. rewrite Hfalsy. reflexivity.
Qed.

Lemma isExtendOf_no_prototype_witness :
  isExtendOf Sample.heap Sample.realm Sample.fuel
    (VObject Sample.emptyObj1) VNull = Ok false.
Proof.
  apply (isExtendOf_no_prototype Sample.heap Sample.realm Sample.fuel
           (VObject Sample.emptyObj1) VNull VUndefined).
  - unfold Sample.fuel. lia.
  - vm_compute. reflexivity.
  - reflexivity.
Defined.

(** X13: [isExtendOf] throws a TypeError when [subClass] is [null] or
    [undefined], and when [superClass] is while [subClass.prototype] is
    truthy. *)
Theorem isExtendOf_throws (h : gmap nat Obj) (realm : Realm)
    (fuel : nat) (subClass superClass : Value) :
  (isEmpty subClass = true \/
   (0 < fuel /\ isEmpty superClass = true /\
    exists p, GetV h realm fuel subClass "prototype" = Ok p /\
              ToBoolean p = true)) ->
  isExtendOf h realm fuel subClass superClass = Throw TypeError.
Proof.
  intros [Hsub | [Hfuel [Hsup [p [Hget Htruthy]]]]].
  - destruct subClass; try discriminate; reflexivity.
  - unfold isExtendOf. rewrite Hget. cbn [bind].
    destruct fuel as [|fuel]; [lia|]. cbn [isExtendOf_loop]. rewrite Htruthy.
    destruct superClass; try discriminate; reflexivity.
Qed.

Lemma isExtendOf_throws_witness :
  isExtendOf Sample.heap Sample.realm Sample.fuel
    (VObject Sample.Base) VUndefined = Throw TypeError.
Proof.
  apply (isExtendOf_throws Sample.heap Sample.realm Sample.fuel
           (VObject Sample.Base) VUndefined).
  right. split; [unfold Sample.fuel; lia|]. split; [reflexivity|].
  exists (VObject Sample.BaseProto). split; [vm_compute; reflexivity | reflexivity].
Defined.

(** *** Instances *)

Section Instances.

Variable h : gmap nat Obj.
Variable realm : Realm.
Variable functionPrototype : nat.

Lemma protoReach_above (a b c : nat) :
  above h a b -> protoReach h b c -> above h a c.
Proof.
  intros [ob [parent [Ha [Hp Hreach]]]] Hbc.
  exists ob, parent. repeat split; try assumption.
  exact (protoReach_trans h parent b c Hreach Hbc).
Qed.

Lemma hasInstance_loop_above (o n : nat) (p : nat) :
  chainEnds h o n ->
  forall fuel, n < fuel ->
  exists r : bool,
    hasInstance_loop h realm fuel (VObject o) p = Ok r /\
    (r = true <-> above h o p).
Proof.
  induction 1 as [l ob Hl Hp | l Hl | l ob parent n Hl Hp Hchain IH];
    intros fuel Hfuel; (destruct fuel as [|fuel]; [lia|]); simpl; rewrite Hl.
  - rewrite Hp. simpl. exists false. split; [reflexivity|].
    split; [discriminate|]. intros [ob' [q [Hl' [Hq _]]]]. congruence.
  - simpl. exists false. split; [reflexivity|].
    split; [discriminate|]. intros [ob' [q [Hl' _]]]. congruence.
  - rewrite Hp. simpl. destruct (Nat.eqb_spec p parent) as [-> | Hne].
    + exists true. split; [reflexivity|]. split; [|reflexivity].
      intros _. exists ob, parent. repeat split; try assumption.
      apply reach_here.
    + destruct (IH fuel ltac:(lia)) as [r [Hr Hiff]].
      exists r. split; [exact Hr|]. rewrite Hiff. split.
      * intros Habove. exists ob, parent. repeat split; try assumption.
        destruct Habove as [pb [q [Hpl [Hq Hreach]]]].
        exact (reach_link h parent pb q p Hpl Hq Hreach).
      * intros [ob' [q [Hl' [Hq Hreach]]]].
        rewrite Hl in Hl'. injection Hl' as <-.
        rewrite Hp in Hq. injection Hq as <-.
        inversion Hreach as [|l0 o0 p0 l1 Hl0 Hp0 Hrest]; subst.
        -- contradiction Hne. reflexivity.
        -- exists o0, p0. repeat split; assumption.
Qed.

Lemma inChain_returns (l n target : nat) :
  chainEnds h l n ->
  forall fuel, n < fuel -> exists b, inChain h fuel l target = Ok b.
Proof.
  induction 1 as [l ob Hl Hp | l Hl | l ob parent n Hl Hp Hchain IH];
    intros fuel Hfuel; (destruct fuel as [|fuel]; [lia|]); simpl;
    (destruct (Nat.eqb l target); [eauto|]); rewrite Hl.
  - rewrite Hp. eauto.
  - eauto.
  - rewrite Hp. apply IH. lia.
Qed.

Lemma instanceOf_true (fuel : nat) (v C : Value) :
  instanceOf h realm functionPrototype fuel v C = Ok true ->
  OrdinaryHasInstance h realm fuel C v = Ok true.
Proof.
  unfold instanceOf. destruct C; try discriminate.
  destruct (inChain h fuel l functionPrototype) as [[|]| |];
    try discriminate; simpl; [tauto|].
  destruct (isFunction h (VObject l)); [tauto | discriminate].
Qed.

Lemma OrdinaryHasInstance_true (fuel : nat) (C v : Value) :
  OrdinaryHasInstance h realm fuel C v = Ok true ->
  isFunction h C = true /\
  exists o a, v = VObject o /\
    GetV h realm fuel C "prototype" = Ok (VObject a) /\
    hasInstance_loop h realm fuel (VObject o) a = Ok true.
Proof.
  unfold OrdinaryHasInstance.
  destruct (isFunction h C); [|discriminate].
  destruct v; try discriminate.
  destruct (GetV h realm fuel C "prototype") as [P| |]; try discriminate.
  destruct P; try discriminate. simpl. intros Hloop.
  split; [reflexivity|]. exists l, l0. repeat split. exact Hloop.
Qed.

(** The loop of [isExtendOf] answers [true] only after it has read
    [superClass.prototype]. *)
Lemma isExtendOf_loop_true (fuel0 fuel : nat) (superClass current : Value) :
  isExtendOf_loop h realm fuel0 superClass fuel current = Ok true ->
  exists sup, GetV h realm fuel0 superClass "prototype" = Ok sup.
Proof.
  destruct fuel as [|fuel]; [discriminate|]. simpl.
  destruct (ToBoolean current); [|discriminate].
  destruct (GetV h realm fuel0 superClass "prototype"); try discriminate.
  eauto.
Qed.

(** Climbing from an object never meets a primitive. *)
Lemma isExtendOf_loop_primitive (fuel0 : nat) (superClass sup : Value) :
  GetV h realm fuel0 superClass "prototype" = Ok sup ->
  (forall b, sup <> VObject b) ->
  forall fuel current,
    current = VNull \/ (exists a, current = VObject a) ->
    isExtendOf_loop h realm fuel0 superClass fuel current = Ok true -> False.
Proof.
  intros Hsup Hprim. induction fuel as [|fuel IH]; intros current Hcur;
    [discriminate|].
  destruct Hcur as [-> | [a ->]]; [discriminate|].
  cbn [isExtendOf_loop ToBoolean]. rewrite Hsup. cbn [bind].
  assert (Hne : strictEq (VObject a) sup = false).
  { destruct sup; try reflexivity. destruct (Hprim l). reflexivity. }
  rewrite Hne. cbn [getPrototypeOf].
  destruct (h !! a) as [ob|]; [destruct (o_proto ob)|]; cbn [bind]; apply IH;
    eauto.
Qed.

End Instances.

(** X14: a primitive is an instance of no constructor: [isInstanceOf]
    answers [false] for every target that is not an object, whatever the
    callable constructor. *)
Theorem isInstanceOf_primitive (h : gmap nat Obj) (realm : Realm)
    (functionPrototype bound fuel : nat) (target constructor : Value) :
  chainsWithin h bound -> bound <= fuel ->
  isFunction h constructor = true ->
  isObject h target = false -> isFunction h target = false ->
  isInstanceOf h realm functionPrototype fuel target constructor = Ok false.
Proof.
  intros Hchains Hfuel Hctor Hobj Hfun.
  destruct (isFunction_inv h constructor Hctor) as [c [-> Hc]].
  unfold isInstanceOf, instanceOf.
  destruct (Hchains c) as [n [Hn Hlt]].
  destruct (inChain_returns h c n functionPrototype Hn fuel ltac:(lia))
    as [inherits ->].
  cbn [bind]. rewrite Hctor.
  assert (Hhas : OrdinaryHasInstance h realm fuel (VObject c) target = Ok false).
  { unfold OrdinaryHasInstance. rewrite Hctor.
    destruct target; try reflexivity.
    unfold isObject, isFunction in Hobj, Hfun. simpl in Hobj, Hfun.
    destruct (callable h l); discriminate. }
  rewrite Hhas. destruct inherits; reflexivity.
Qed.

Lemma isInstanceOf_primitive_witness :
  isInstanceOf Sample.heap Sample.realm Sample.FunctionPrototype Sample.fuel
    (Sample.num 5) (VObject Sample.NumberCtor) = Ok false.
Proof.
  apply (isInstanceOf_primitive Sample.heap Sample.realm
           Sample.FunctionPrototype 4 Sample.fuel).
  - exact Sample_chainsWithin.
  - unfold Sample.fuel. lia.
  - reflexivity.
  - reflexivity.
  - reflexivity.
Defined.

(** X15: [isInstanceOf] and [isExtendOf] compose: an instance of [Sub] is
    an instance of every callable [Sup] that [Sub] extends. *)
Theorem isInstanceOf_isExtendOf (h : gmap nat Obj) (realm : Realm)
    (functionPrototype bound fuel : nat) (target Sub Sup : Value) :
  chainsWithin h bound -> bound + 2 <= fuel ->
  isFunction h Sup = true ->
  isInstanceOf h realm functionPrototype fuel target Sub = Ok true ->
  isExtendOf h realm fuel Sub Sup = Ok true ->
  isInstanceOf h realm functionPrototype fuel target Sup = Ok true.
Proof.
  intros Hchains Hfuel HSup Hinst Hext.
  apply instanceOf_true, OrdinaryHasInstance_true in Hinst.
  destruct Hinst as [_ [o [a [-> [Hproto Hloop]]]]].
  destruct (Hchains o) as [n [Hn Hnlt]].
  destruct (hasInstance_loop_above h realm o n a Hn fuel ltac:(lia))
    as [r [Hr Hra]].
  rewrite Hloop in Hr. injection Hr as <-.
  assert (Hoa : above h o a) by (apply Hra; reflexivity).
  unfold isExtendOf in Hext. rewrite Hproto in Hext. cbn [bind] in Hext.
  destruct (isExtendOf_loop_true h realm fuel fuel Sup (VObject a) Hext)
    as [sup Hsup].
  assert (Hb : exists b, sup = VObject b).
  { destruct sup; eauto; exfalso;
      apply (isExtendOf_loop_primitive h realm fuel Sup _ Hsup
               ltac:(discriminate) fuel (VObject a)); eauto. }
  destruct Hb as [b ->].
  destruct (Hchains a) as [m [Hm Hmlt]].
  destruct (isExtendOf_loop_reaches h realm fuel Sup b Hsup a m Hm fuel
              ltac:(lia)) as [r [Hr Hab]].
  rewrite Hext in Hr. injection Hr as <-.
  assert (Hob : above h o b)
    by (apply (protoReach_above h o a b Hoa), Hab; reflexivity).
  destruct (isFunction_inv h Sup HSup) as [s [-> Hs]].
  unfold isInstanceOf, instanceOf.
  destruct (Hchains s) as [k [Hk Hklt]].
  destruct (inChain_returns h s k functionPrototype Hk fuel ltac:(lia))
    as [inherits ->].
  cbn [bind]. rewrite HSup.
  assert (Hhas : OrdinaryHasInstance h realm fuel (VObject s) (VObject o)
                 = Ok true).
  { unfold OrdinaryHasInstance. rewrite HSup, Hsup. cbn [bind].
    destruct (hasInstance_loop_above h realm o n b Hn fuel ltac:(lia))
      as [r [Hr Hrb]].
    rewrite Hr. f_equal. apply Hrb. exact Hob. }
  rewrite Hhas. destruct inherits; reflexivity.
Qed.

Lemma isInstanceOf_isExtendOf_witness :
  isInstanceOf Sample.heap Sample.realm Sample.FunctionPrototype Sample.fuel
    (VObject Sample.SubProto) (VObject Sample.ObjectCtor) = Ok true.
Proof.
  apply (isInstanceOf_isExtendOf Sample.heap Sample.realm
           Sample.FunctionPrototype 4 Sample.fuel
           (VObject Sample.SubProto) (VObject Sample.Base)
           (VObject Sample.ObjectCtor)).
  - exact Sample_chainsWithin.
  - unfold Sample.fuel. lia.
  - reflexivity.
  - vm_compute. reflexivity.
  - vm_compute. reflexivity.
Defined.

(** *** Iterables *)

(** X16: while nothing binds [iterator], [isIterable] answers [false] for
    [null] and [undefined] and throws a ReferenceError for every other
    value. *)
Theorem isIterable_unbound (h : gmap nat Obj) (realm : Realm)
    (genv : string -> option Value) (propertyKey : Value -> Res string)
    (fuel : nat) (v : Value) :
  genv "iterator" = None ->
  isIterable h realm genv propertyKey fuel v =
    if isEmpty v then Ok false else Throw ReferenceError.
Proof.
  intros Hfree. unfold isIterable. rewrite isDefined_isEmpty, Hfree.
  destruct (isDefined v); reflexivity.
Qed.

Lemma isIterable_unbound_witness :
  isIterable Sample.heap Sample.realm Sample.globals (fun _ => Ok "iterator")
    Sample.fuel (VObject Sample.anArray) =
    if isEmpty (VObject Sample.anArray) then Ok false else Throw ReferenceError.
Proof.
  apply (isIterable_unbound Sample.heap Sample.realm Sample.globals
           (fun _ => Ok "iterator") Sample.fuel (VObject Sample.anArray)).
  reflexivity.
Defined.

(** *** Rounding never produces NaN *)

Lemma shr_1_nonneg (mrs : shr_record) :
  (0 <= shr_m mrs)%Z -> (0 <= shr_m (shr_1 mrs))%Z.
Proof.
  destruct mrs as [m r s]. simpl. intros Hm.
  destruct m as [|p|p]; [simpl; lia | destruct p; simpl; lia | lia].
Qed.

Lemma iter_shr_1_nonneg (p : positive) :
  forall mrs, (0 <= shr_m mrs)%Z -> (0 <= shr_m (SpecFloat.iter_pos shr_1 p mrs))%Z.
Proof.
  induction p as [p IH | p IH |]; intros mrs Hm; simpl.
  - apply IH, IH, shr_1_nonneg, Hm.
  - apply IH, IH, Hm.
  - apply shr_1_nonneg, Hm.
Qed.

Lemma shr_fexp_nonneg (m e : Z) (l : location) :
  (0 <= m)%Z ->
  (0 <= shr_m (fst (shr_fexp Num.prec Num.emax m e l)))%Z.
Proof.
  intros Hm. unfold shr_fexp, shr.
  assert (H0 : (0 <= shr_m (shr_record_of_loc m l))%Z)
    by (destruct l as [|[ | | ]]; exact Hm).
  destruct (fexp Num.prec Num.emax (Zdigits2 m + e) - e)%Z;
    simpl; try exact H0.
  apply iter_shr_1_nonneg, H0.
Qed.

Lemma round_nearest_even_nonneg (m : Z) (l : location) :
  (0 <= m)%Z -> (0 <= round_nearest_even m l)%Z.
Proof.
  intros Hm. destruct l as [|[ | | ]]; simpl; try lia.
  destruct (Z.even m); lia.
Qed.

Lemma binary_round_aux_not_nan (sx : bool) (mx ex : Z) (lx : location) :
  (0 <= mx)%Z ->
  binary_round_aux Num.prec Num.emax sx mx ex lx <> S754_nan.
Proof.
  intros Hm. unfold binary_round_aux.
  pose proof (shr_fexp_nonneg mx ex lx Hm) as H1.
  destruct (shr_fexp Num.prec Num.emax mx ex lx) as [mrs' e'].
  simpl in H1.
  pose proof (shr_fexp_nonneg _ e' loc_Exact
                (round_nearest_even_nonneg (shr_m mrs')
                   (loc_of_shr_record mrs') H1)) as H2.
  destruct (shr_fexp Num.prec Num.emax
              (round_nearest_even (shr_m mrs') (loc_of_shr_record mrs'))
              e' loc_Exact) as [mrs'' e''].
  simpl in H2. destruct (shr_m mrs'') as [|m|m]; try discriminate; [|lia].
  destruct (e'' <=? Num.emax - Num.prec)%Z; discriminate.
Qed.

(** [1 / x] is a Number that equals itself, unless [x] is [NaN]. *)
Lemma reciprocal_self_equal (s : bool) (m : positive) (e : Z) :
  Num.eqb (Num.div Num.one (S754_finite s m e))
          (Num.div Num.one (S754_finite s m e)) = true.
Proof.
  rewrite Num_eqb_refl.
  assert (Hnan : Num.div Num.one (S754_finite s m e) <> S754_nan).
  { change Num.one with (S754_finite false 4503599627370496 (-52)).
    unfold Num.div, SFdiv, SFdiv_core_binary.
    set (m' := match _ with Z0 => _ | Zpos _ => _ | Zneg _ => _ end).
    assert (Hm' : (0 <= m')%Z).
    { subst m'. destruct (_ - _ - _)%Z; try lia.
      apply Z.shiftl_nonneg. lia. }
    pose proof (Z_div_mod m' (Zpos m) ltac:(lia)) as Hdiv.
    destruct (Z.div_eucl m' (Zpos m)) as [q r].
    apply binary_round_aux_not_nan. nia. }
  destruct (Num.div Num.one (S754_finite s m e)); try reflexivity.
  contradiction Hnan. reflexivity.
Qed.

Lemma Num_eqb_finite_eq (s : bool) (m : positive) (e : Z) (y : spec_float) :
  Num.eqb (S754_finite s m e) y = true -> y = S754_finite s m e.
Proof.
  unfold Num.eqb, SFeqb. destruct y as [t|t| |t m' e']; simpl;
    try (destruct s; discriminate); try (destruct t; discriminate).
  destruct s, t; try discriminate;
    destruct (Z.compare_spec e e') as [-> | |]; try discriminate;
    destruct (Pos.compare_cont Eq m m') eqn:Hm; try discriminate;
    apply Pos.compare_eq in Hm; subst; reflexivity.
Qed.

(** *** Equality, continued *)

(** X17: [isEquals] is [===] except on two zeros of opposite signs, which
    it tells apart; in particular it is never [true] where [===] is
    [false]. *)
Theorem isEquals_strictEq (h : gmap nat Obj) (a b : Value) :
  isEquals h a b = strictEq a b && negb (oppositeZeros a b).
Proof.
  unfold isEquals. destruct (isNumber h a) eqn:Ha.
  - destruct (isNumber_inv h a Ha) as [x [-> Hx]].
    destruct (strictEq (VNumber x) b) eqn:Hab.
    + destruct b as [| | |y| | | |]; try discriminate. simpl in Hab.
      destruct x as [s| | |s m e]; try discriminate.
      * destruct y as [t|t| |t m' e'];
          try (destruct s; discriminate); try (destruct t; discriminate).
        destruct s, t; reflexivity.
      * rewrite (Num_eqb_finite_eq s m e y Hab). simpl.
        apply reciprocal_self_equal.
    + rewrite (isNumber_self_equal h _ Ha). reflexivity.
  - destruct a as [| | |x| | | |]; try (rewrite andb_true_r; reflexivity).
    destruct x; try discriminate; simpl; rewrite andb_true_r; reflexivity.
Qed.

(** X18: [isEquals(a, b)] holds exactly when [a] and [b] are the same
    value and that value is not [NaN]; so apart from [NaN] the relation
    is reflexive, and it is transitive. *)
Theorem isEquals_same_value (h : gmap nat Obj) (a b : Value) :
  isEquals h a b = true <-> a = b /\ a <> VNumber Num.NaN.
Proof.
  rewrite isEquals_strictEq. split.
  - intros H. apply andb_prop in H. destruct H as [Heq Hz].
    destruct a, b; try discriminate; simpl in Heq.
    + split; [reflexivity | discriminate].
    + split; [reflexivity | discriminate].
    + apply Bool.eqb_prop in Heq. subst. split; [reflexivity | discriminate].
    + destruct n as [s|s| |s m e].
      * destruct n0 as [t|t| |t m' e'];
          try (destruct s; discriminate); try (destruct t; discriminate).
        destruct s, t; try discriminate; split; (reflexivity || discriminate).
      * destruct n0 as [t|t| |t m' e']; try (destruct s; discriminate).
        destruct s, t; try discriminate; split; (reflexivity || discriminate).
      * discriminate.
      * rewrite (Num_eqb_finite_eq s m e n0 Heq).
        split; [reflexivity | discriminate].
    + apply String.eqb_eq in Heq. subst. split; [reflexivity | discriminate].
    + apply Nat.eqb_eq in Heq. subst. split; [reflexivity | discriminate].
    + apply Z.eqb_eq in Heq. subst. split; [reflexivity | discriminate].
    + apply Nat.eqb_eq in Heq. subst. split; [reflexivity | discriminate].
  - intros [<- Hnan]. rewrite strictEq_refl.
    destruct a as [| | |x| | | |]; try reflexivity.
    destruct x as [s|s| |s m e]; try reflexivity.
    + destruct s; reflexivity.
    + contradiction Hnan. reflexivity.
Qed.

(** *** Exact rounding *)

Lemma digits2_pos_size (p : positive) : digits2_pos p = Pos.size p.
Proof. induction p; simpl; congruence. Qed.

Lemma iter_xO_spec (d m : positive) :
  Zpos (Pos.iter xO m d) = (Zpos m * 2 ^ Zpos d)%Z /\
  Zpos (digits2_pos (Pos.iter xO m d)) = (Zpos (digits2_pos m) + Zpos d)%Z.
Proof.
  induction d as [|d [IHv IHd]] using Pos.peano_ind.
  - simpl. split; lia.
  - rewrite Pos.iter_succ. split.
    + rewrite Pos2Z.inj_xO, IHv, Pos2Z.inj_succ, Z.pow_succ_r; lia.
    + simpl digits2_pos. rewrite Pos2Z.inj_succ, IHd. lia.
Qed.

Lemma shl_align_spec (m : positive) (e e' : Z) :
  (e' <= e)%Z ->
  snd (shl_align m e e') = e' /\
  Zpos (fst (shl_align m e e')) = (Zpos m * 2 ^ (e - e'))%Z /\
  Zpos (digits2_pos (fst (shl_align m e e'))) =
    (Zpos (digits2_pos m) + (e - e'))%Z.
Proof.
  intros Hle. unfold shl_align.
  destruct (e' - e)%Z as [|d|d] eqn:Hd; try lia; simpl.
  - assert (e' = e) by lia. subst. rewrite Z.sub_diag. simpl. lia.
  - assert (He : (e - e' = Zpos d)%Z) by lia. rewrite He.
    destruct (iter_xO_spec d m) as [Hv Hdig]. auto.
Qed.

(** A mantissa of at most 53 bits with an exponent in range is stored as
    it is, shifted to its canonical exponent. *)
Lemma binary_round_exact (s : bool) (m : positive) (e : Z) :
  (Zpos (digits2_pos m) <= 53)%Z -> (-1074 <= e)%Z -> (e <= 971)%Z ->
  exists m' e',
    binary_round Num.prec Num.emax s m e = S754_finite s m' e' /\
    (e' <= e)%Z /\ Zpos m' = (Zpos m * 2 ^ (e - e'))%Z.
Proof.
  intros Hdig Hmin Hmax.
  set (e0 := fexp Num.prec Num.emax (Zpos (digits2_pos m) + e)).
  assert (He0 : (e0 <= e)%Z)
    by (subst e0; unfold fexp, emin, Num.prec, Num.emax; lia).
  destruct (shl_align_spec m e e0 He0) as [Hez [Hmz Hdz]].
  unfold binary_round. fold e0.
  destruct (shl_align m e e0) as [mz ez]. simpl in Hez, Hmz, Hdz. subst ez.
  assert (Hshr : shr_fexp Num.prec Num.emax (Zpos mz) e0 loc_Exact =
                 (Build_shr_record (Zpos mz) false false, e0)).
  { unfold shr_fexp. simpl Zdigits2. rewrite Hdz.
    replace (Zpos (digits2_pos m) + (e - e0) + e0)%Z
      with (Zpos (digits2_pos m) + e)%Z by lia.
    fold e0. rewrite Z.sub_diag. reflexivity. }
  unfold binary_round_aux. rewrite Hshr. simpl. rewrite Hshr. simpl.
  assert (Hle : (e0 <=? Num.emax - Num.prec)%Z = true)
    by (apply Z.leb_le; unfold Num.emax, Num.prec; lia).
  rewrite Hle. exists mz, e0. auto.
Qed.

Lemma digits2_pos_bound (p : positive) (k : Z) :
  (0 <= k)%Z -> (Zpos p < 2 ^ k)%Z -> (Zpos (digits2_pos p) <= k)%Z.
Proof.
  intros Hk Hlt. rewrite digits2_pos_size.
  pose proof (Pos.size_le p) as Hsize.
  assert (H2 : (2 ^ Zpos (Pos.size p) <= 2 * Zpos p)%Z).
  { rewrite <- Pos2Z.inj_pow. change (2 * Zpos p)%Z with (Zpos p~0).
    apply Pos2Z.pos_le_pos. exact Hsize. }
  assert (H3 : (2 ^ Zpos (Pos.size p) < 2 ^ (k + 1))%Z).
  { rewrite Z.pow_add_r by lia. lia. }
  apply Z.pow_lt_mono_r_iff in H3; lia.
Qed.

Lemma digits2_pos_value (p : positive) (k : Z) :
  (Zpos (digits2_pos p) <= k)%Z -> (Zpos p < 2 ^ k)%Z.
Proof.
  intros Hle. rewrite digits2_pos_size in Hle.
  pose proof (Pos.size_gt p) as Hgt.
  assert (H2 : (Zpos p < 2 ^ Zpos (Pos.size p))%Z).
  { rewrite <- Pos2Z.inj_pow. apply Pos2Z.pos_lt_pos. exact Hgt. }
  apply (Z.lt_le_trans _ _ _ H2). apply Z.pow_le_mono_r; lia.
Qed.

(** [x % 1] for a finite [x = m * 2^e], before normalisation. *)
Lemma rem_one_eq (s : bool) (m : positive) (e : Z) :
  Num.rem (S754_finite s m e) Num.one =
    binary_normalize Num.prec Num.emax
      (cond_Zopp s ((Zpos m * 2 ^ (e - Z.min e (-52))) mod 2 ^ (- Z.min e (-52))))
      (Z.min e (-52)) s.
Proof.
  change Num.one with (S754_finite false 4503599627370496 (-52)).
  unfold Num.rem.
  destruct (shl_align_spec m e (Z.min e (-52)) ltac:(lia)) as [_ [HN _]].
  destruct (shl_align_spec 4503599627370496 (-52) (Z.min e (-52)) ltac:(lia))
    as [_ [HD _]].
  cbv zeta. rewrite HN, HD.
  replace (Zpos 4503599627370496 * 2 ^ (-52 - Z.min e (-52)))%Z
    with (2 ^ (- Z.min e (-52)))%Z; [reflexivity|].
  change (Zpos 4503599627370496) with (2 ^ 52)%Z.
  rewrite <- Z.pow_add_r by lia. f_equal. lia.
Qed.

Lemma rem_one_integral (s : bool) (m : positive) (e : Z) :
  ((Zpos m * 2 ^ (e - Z.min e (-52))) mod 2 ^ (- Z.min e (-52)) = 0)%Z <->
  integral (S754_finite s m e) = true.
Proof.
  unfold integral. rewrite orb_true_iff, Z.leb_le, Z.eqb_eq.
  destruct (Z_le_gt_dec 0 e) as [Hpos | Hneg].
  - rewrite Z.min_r by lia. split; [auto|]. intros _.
    replace (e - -52)%Z with (e + 52)%Z by lia.
    rewrite Z.pow_add_r by lia. change (- -52)%Z with 52%Z.
    rewrite Z.mul_assoc. apply Z.mod_mul. lia.
  - destruct (Z_le_gt_dec (-52) e) as [Hmid | Hlow].
    + rewrite Z.min_r by lia. change (- -52)%Z with 52%Z.
      replace (2 ^ 52)%Z with (2 ^ (- e) * 2 ^ (e - -52))%Z
        by (rewrite <- Z.pow_add_r by lia; f_equal; lia).
      assert (Hc : (0 < 2 ^ (e - -52))%Z) by (apply Z.pow_pos_nonneg; lia).
      assert (Hb : (0 < 2 ^ (- e))%Z) by (apply Z.pow_pos_nonneg; lia).
      rewrite Z.mul_mod_distr_r by lia.
      split.
      * intros H. right. nia.
      * intros [H | H]; [lia | rewrite H; reflexivity].
    + rewrite Z.min_l by lia. rewrite Z.sub_diag, Z.mul_1_r.
      split; [auto | intros [H | H]; [lia | exact H]].
Qed.

Lemma rem_one_zero (s : bool) (m : positive) (e : Z) :
  integral (S754_finite s m e) = true ->
  Num.eqb (Num.rem (S754_finite s m e) Num.one) Num.posZero = true.
Proof.
  intros Hint. apply rem_one_integral in Hint.
  rewrite rem_one_eq, Hint. destruct s; reflexivity.
Qed.

Lemma rem_one_nonzero (s : bool) (m : positive) (e : Z) :
  valid_binary Num.prec Num.emax (S754_finite s m e) = true ->
  integral (S754_finite s m e) = false ->
  Num.eqb (Num.rem (S754_finite s m e) Num.one) Num.posZero = false.
Proof.
  intros Hvalid Hint.
  simpl in Hvalid. unfold bounded, canonical_mantissa in Hvalid.
  apply andb_prop in Hvalid. destruct Hvalid as [Hcan Hmax].
  apply Z.eqb_eq in Hcan. apply Z.leb_le in Hmax.
  unfold fexp, emin, Num.prec, Num.emax in Hcan, Hmax.
  assert (Hdig : (Zpos (digits2_pos m) <= 53)%Z) by lia.
  assert (Hmin : (-1074 <= e)%Z) by lia.
  rewrite rem_one_eq.
  set (e0 := Z.min e (-52)).
  set (r := ((Zpos m * 2 ^ (e - e0)) mod 2 ^ (- e0))%Z).
  assert (Hr0 : r <> 0%Z).
  { intros H. apply (rem_one_integral s) in H. congruence. }
  assert (HD : (0 < 2 ^ (- e0))%Z) by (apply Z.pow_pos_nonneg; subst e0; lia).
  pose proof (Z.mod_pos_bound (Zpos m * 2 ^ (e - e0)) (2 ^ (- e0)) HD) as Hr.
  fold r in Hr.
  assert (Hr53 : (r < 2 ^ 53)%Z).
  { destruct (Z_le_gt_dec (-52) e) as [Hmid | Hlow].
    - subst e0. rewrite Z.min_r in Hr by lia. change (- -52)%Z with 52%Z in Hr.
      assert ((2 ^ 52 < 2 ^ 53)%Z) by reflexivity. lia.
    - pose proof (digits2_pos_value m 53 Hdig) as Hm.
      assert (Hrm : (r <= Zpos m)%Z).
      { subst r e0. rewrite Z.min_l by lia. rewrite Z.sub_diag, Z.mul_1_r.
        apply Z.mod_le; lia. }
      lia. }
  destruct r as [|p|p]; [congruence | | lia].
  assert (Hp : (Zpos (digits2_pos p) <= 53)%Z)
    by (apply digits2_pos_bound; [lia | exact Hr53]).
  assert (He0 : (-1074 <= e0 <= 971)%Z) by (subst e0; lia).
  destruct s; simpl.
  - destruct (binary_round_exact true p e0 Hp ltac:(lia) ltac:(lia))
      as [m' [e' [-> _]]]. reflexivity.
  - destruct (binary_round_exact false p e0 Hp ltac:(lia) ltac:(lia))
      as [m' [e' [-> _]]]. reflexivity.
Qed.

Lemma ofZ_pos (p : positive) :
  (Zpos p < 2 ^ 53)%Z ->
  exists m e, Num.ofZ (Zpos p) = S754_finite false m e /\
              integral (S754_finite false m e) = true.
Proof.
  intros Hlt.
  assert (Hdig : (Zpos (digits2_pos p) <= 53)%Z)
    by (apply digits2_pos_bound; [lia | exact Hlt]).
  destruct (binary_round_exact false p 0 Hdig ltac:(lia) ltac:(lia))
    as [m [e [Hround [He Hm]]]].
  exists m, e. split; [exact Hround|].
  unfold integral. rewrite orb_true_iff, Z.leb_le, Z.eqb_eq. right.
  rewrite Hm. replace (0 - e)%Z with (- e)%Z by lia.
  apply Z.mod_mul. apply Z.pow_nonzero; lia.
Qed.

Lemma ofZ_nat_zero (n : nat) :
  (Z.of_nat n < 2 ^ 53)%Z ->
  strictEq (VNumber (Num.ofZ (Z.of_nat n))) (VNumber Num.posZero)
  = Nat.eqb n 0.
Proof.
  intros Hlt. destruct n as [|n]; [reflexivity|].
  rewrite Nat2Z.inj_succ in *. 
  destruct (Z.succ (Z.of_nat n)) as [|p|p] eqn:Hp; try lia.
  destruct (ofZ_pos p Hlt) as [m [e [-> _]]]. reflexivity.
Qed.

Lemma isUInt_ofZ_nat (h : gmap nat Obj) (n : nat) :
  (Z.of_nat n < 2 ^ 53)%Z ->
  isUInt h (VNumber (Num.ofZ (Z.of_nat n))) = true.
Proof.
  intros Hlt. destruct (Z.of_nat n) as [|p|p] eqn:Hp; try lia;
    [reflexivity|].
  destruct (ofZ_pos p Hlt) as [m [e [-> Hint]]].
  unfold isUInt, isInt. rewrite isNumber_number.
  unfold strictEq, numberValue.
  rewrite (rem_one_zero false m e Hint). reflexivity.
Qed.

(** *** Integers *)

(** X19: on every Number that is a valid binary64 value, [isInt] holds
    exactly of the mathematical integers: the zeros and the [m * 2^e]
    with [e >= 0] or with [2^(-e)] dividing [m]. *)
Theorem isInt_integral (h : gmap nat Obj) (x : spec_float) :
  valid_binary Num.prec Num.emax x = true ->
  isInt h (VNumber x) = integral x.
Proof.
  intros Hvalid. unfold isInt. rewrite isNumber_number.
  destruct x as [s|s| |s m e]; try reflexivity.
  unfold strictEq, numberValue. cbn [Num.finite andb].
  destruct (integral (S754_finite s m e)) eqn:Hint.
  - apply rem_one_zero. exact Hint.
  - apply rem_one_nonzero; assumption.
Qed.

Lemma isInt_integral_witness :
  isInt Sample.heap Sample.threeAndHalf = integral (Num.dyadic 7 (-1)).
Proof.
  apply (isInt_integral Sample.heap (Num.dyadic 7 (-1))). reflexivity.
Defined.

(** *** Strings and objects *)

(** X20: every string is array-like, the empty one included, on any heap
    and with any fuel: its [length] is an own property and an unsigned
    integer. *)
Theorem strings_are_array_like (h : gmap nat Obj) (realm : Realm)
    (fuel : nat) (s : string) :
  (Z.of_nat (String.length s) < 2 ^ 53)%Z ->
  isArrayLike h realm fuel (VString s) = Ok true.
Proof.
  intros Hlen. unfold isArrayLike.
  change (isDefined (VString s)) with true.
  change (GetV h realm fuel (VString s) "length")
    with (@Ok Value (VNumber (Num.ofZ (Z.of_nat (String.length s))))).
  cbn [bind]. rewrite (isUInt_ofZ_nat h _ Hlen). reflexivity.
Qed.

Lemma strings_are_array_like_witness :
  isArrayLike Sample.heap Sample.realm Sample.fuel (VString "abc") = Ok true.
Proof.
  apply (strings_are_array_like Sample.heap Sample.realm Sample.fuel "abc").
  reflexivity.
Defined.

(** X21: a string is a zero value exactly when it is empty. *)
Theorem isZeroValue_string (h : gmap nat Obj) (realm : Realm)
    (fuel : nat) (s : string) :
  (Z.of_nat (String.length s) < 2 ^ 53)%Z ->
  isZeroValue h realm fuel (VString s) = Ok (String.eqb s "").
Proof.
  intros Hlen. unfold isZeroValue.
  change (isEmpty (VString s)) with false.
  change (strictEq (VString s) (VNumber Num.posZero)) with false.
  change (GetV h realm fuel (VString s) "length")
    with (@Ok Value (VNumber (Num.ofZ (Z.of_nat (String.length s))))).
  cbn [bind ObjectKeys]. rewrite length_map, length_seq.
  rewrite (ofZ_nat_zero _ Hlen).
  destruct s as [|c s]; reflexivity.
Qed.

Lemma isZeroValue_string_witness :
  isZeroValue Sample.heap Sample.realm Sample.fuel (VString "abc")
  = Ok (String.eqb "abc" "").
Proof.
  apply (isZeroValue_string Sample.heap Sample.realm Sample.fuel "abc").
  reflexivity.
Defined.

(** X22: an object is a zero value exactly when its [length] is [===] to
    0 or it has no enumerable own property; so a function declared
    without parameters is one, and so is every empty object. *)
Theorem isZeroValue_object (h : gmap nat Obj) (realm : Realm)
    (fuel : nat) (l : nat) (o : Obj) (len : Value) :
  h !! l = Some o ->
  GetV h realm fuel (VObject l) "length" = Ok len ->
  (Z.of_nat (List.length (o_props o)) < 2 ^ 53)%Z ->
  isZeroValue h realm fuel (VObject l) =
    Ok (strictEq len (VNumber Num.posZero) ||
        forallb (fun kp => negb (p_enumerable (snd kp))) (o_props o)).
Proof.
  intros Hl Hget Hsize. unfold isZeroValue.
  change (isEmpty (VObject l)) with false.
  change (strictEq (VObject l) (VNumber Num.posZero)) with false.
  rewrite Hget. cbn [bind].
  destruct (strictEq len (VNumber Num.posZero)); [reflexivity|].
  cbn [ObjectKeys]. rewrite Hl. cbn [bind orb]. rewrite length_map.
  pose proof (length_filter (fun kp : string * Property => p_enumerable (snd kp))
                (o_props o)) as Hle.
  rewrite ofZ_nat_zero by lia. f_equal.
  clear. induction (o_props o) as [|kp ps IH]; [reflexivity|].
  rewrite filter_cons. cbn [forallb].
  destruct (p_enumerable (snd kp)) eqn:Hen.
  - rewrite decide_True by exact I. reflexivity.
  - rewrite decide_False by exact id. exact IH.
Qed.

Lemma isZeroValue_object_witness :
  isZeroValue Sample.heap Sample.realm Sample.fuel (VObject Sample.anObject)
  = Ok (strictEq VUndefined (VNumber Num.posZero) ||
        forallb (fun kp => negb (p_enumerable (snd kp)))
          (o_props (Sample.plain Sample.ObjectPrototype
                      [("x", Sample.data (Sample.num 1))]))).
Proof.
  apply (isZeroValue_object Sample.heap Sample.realm Sample.fuel
           Sample.anObject
           (Sample.plain Sample.ObjectPrototype
              [("x", Sample.data (Sample.num 1))])
           VUndefined).
  - vm_compute. reflexivity.
  - vm_compute. reflexivity.
  - reflexivity.
Defined.
